(** * mini_freelance: a shallow embedding of [app.py]

    The Flask application keeps three tables (User, Project, Bid), an
    upload directory and one login session per browser.  Each request
    handler of [app.py] is a function from what the request sees (the
    tables, the upload directory, the session of the requesting browser)
    and the form fields to a response and what the request leaves behind.
    Tables are lists of rows in insertion order, which is the order of
    their keys; the one query that looks rows up through two indexes,
    that of [login] and [register], is written out index by index.  The
    upload directory maps a file name to the content last saved under it.
    Password hashing goes through an interface; [secure_filename] is
    written out after the steps of the library function. *)

From Stdlib Require Import List String Ascii ZArith Bool Lia Arith.
From Stdlib Require Import DecimalString.
Import ListNotations.

#[local] Open Scope string_scope.
#[local] Open Scope Z_scope.

(** ** Python string operations used by the handlers *)

Module PyStr.

(** A character is a code point below 256, a string a Python [str] over
    these. *)

(** [str.isspace] on one character: TAB, LF, VT, FF, CR, the separators
    FS, GS, RS, US, the blank, NEL (0x85) and the no-break space (0xA0). *)
Definition is_space (c : ascii) : bool :=
  let n := nat_of_ascii c in
  ((9 <=? n)%nat && (n <=? 13)%nat) || ((28 <=? n)%nat && (n <=? 32)%nat)
  || (n =? 133)%nat || (n =? 160)%nat.

(** [str.lower] on one character: [A]..[Z] and the capital letters of
    0xC0..0xDE (the multiplication sign 0xD7 is not one) move up by 32. *)
Definition lower_char (c : ascii) : ascii :=
  let n := nat_of_ascii c in
  if ((65 <=? n)%nat && (n <=? 90)%nat)
     || ((192 <=? n)%nat && (n <=? 222)%nat && negb (n =? 215)%nat)
  then ascii_of_nat (n + 32) else c.

Fixpoint lower (s : string) : string :=
  match s with
  | EmptyString => EmptyString
  | String c s' => String (lower_char c) (lower s')
  end.

Fixpoint lstrip (s : string) : string :=
  match s with
  | EmptyString => EmptyString
  | String c s' => if is_space c then lstrip s' else s
  end.

(** [rstrip] keeps a character when something that is not blank follows
    it, or when it is not blank itself. *)
Fixpoint rstrip (s : string) : string :=
  match s with
  | EmptyString => EmptyString
  | String c s' =>
      match rstrip s' with
      | EmptyString => if is_space c then EmptyString else String c EmptyString
      | r => String c r
      end
  end.

(** [s.strip()] *)
Definition strip (s : string) : string := rstrip (lstrip s).

(** Truth value of a string: [not s] holds for the empty string only. *)
Definition truthy (s : string) : bool :=
  match s with EmptyString => false | String _ _ => true end.

(** ["." in s] *)
Fixpoint contains_dot (s : string) : bool :=
  match s with
  | EmptyString => false
  | String c s' => Ascii.eqb c "."%char || contains_dot s'
  end.

(** [s.rsplit(".", 1)] when [s] holds a dot: the text before the last dot
    and the text after it.  Without a dot Python returns the one-element
    list [[s]], here [None]. *)
Fixpoint rsplit_dot (s : string) : option (string * string) :=
  match s with
  | EmptyString => None
  | String c s' =>
      match rsplit_dot s' with
      | Some (h, t) => Some (String c h, t)
      | None => if Ascii.eqb c "."%char then Some (EmptyString, s') else None
      end
  end.

(** [str(n)] for an integer, as an f-string formats it. *)
Definition str_of_int (n : Z) : string := NilZero.string_of_int (Z.to_int n).

End PyStr.

(** ** Models (lines 42-78)

    The columns [bio] and [created_at] are left out: no handler below
    reads them, and they are written with their defaults only.  A form
    field that is absent reads as the empty string, as
    [request.form.get(name, "")] returns it. *)

Record User := mkUser {
  user_id : Z;
  username : string;
  display_name : string;
  email : string;
  password_hash : string
}.

Record Project := mkProject {
  project_id : Z;
  title : string;
  description : string;
  budget : string;
  owner_id : Z;
  image : option string
}.

Record Bid := mkBid {
  bid_id : Z;
  price : string;
  message : string;
  bid_project_id : Z;
  bidder_id : Z;
  accepted : bool
}.

Record DB := mkDB {
  users : list User;
  projects : list Project;
  bids : list Bid
}.

Definition empty_db : DB := mkDB [] [] [].

(** An integer primary key gets the successor of the largest key of the
    table, 1 in an empty table; no row is ever deleted. *)
Definition next_id (ids : list Z) : Z := 1 + fold_right Z.max 0 ids.

(** ** Utility: allowed uploads (lines 90-92) *)

Definition ALLOWED_EXT : list string := ["png"; "jpg"; "jpeg"; "gif"].

Definition mem_string (s : string) (l : list string) : bool :=
  existsb (String.eqb s) l.

Definition allowed_file (filename : string) : bool :=
  PyStr.contains_dot filename &&
  match PyStr.rsplit_dot filename with
  | Some (_, ext) => mem_string (PyStr.lower ext) ALLOWED_EXT
  | None => false
  end.

(** ** The werkzeug functions the application imports (lines 12-13) *)

(** The characters [secure_filename] keeps are the ASCII letters, the
    digits, the underscore, the dot and the hyphen; dots and underscores
    are removed at both ends. *)
Module FileName.

Definition is_safe (c : ascii) : bool :=
  let n := nat_of_ascii c in
  ((48 <=? n)%nat && (n <=? 57)%nat) || ((65 <=? n)%nat && (n <=? 90)%nat)
  || ((97 <=? n)%nat && (n <=? 122)%nat)
  || Ascii.eqb c "_"%char || Ascii.eqb c "."%char || Ascii.eqb c "-"%char.

Definition is_edge (c : ascii) : bool :=
  Ascii.eqb c "."%char || Ascii.eqb c "_"%char.




(** The last character of the name is a dot or an underscore. *)
Fixpoint ends_with_edge (s : string) : bool :=
  match s with
  | EmptyString => false
  | String c EmptyString => is_edge c
  | String _ s' => ends_with_edge s'
  end.



End FileName.

(** [werkzeug.utils.secure_filename] on a POSIX host ([os.sep] is the
    slash and [os.path.altsep] is empty), step by step: the name is put in
    normal form NFKD and its non-ASCII characters are dropped; slashes
    become blanks; the blank-separated pieces are joined by underscores;
    every character outside [A-Za-z0-9_.-] is dropped; dots and
    underscores are stripped at both ends. *)
Module SecureFilename.

Definition code_in (n : nat) (l : list nat) : bool := existsb (Nat.eqb n) l.

(** NFKD followed by [encode("ascii", "ignore")], on one character: an
    ASCII character stays, an accented letter leaves its base letter, a
    superscript digit or a fraction its digits, a spacing accent or the
    no-break space a blank, and anything else nothing. *)
Definition nfkd_ascii (c : ascii) : string :=
  let n := nat_of_ascii c in
  if (n <? 128)%nat then String c EmptyString
  else if code_in n [160; 168; 175; 180; 184]%nat then " "
  else if code_in n [170; 224; 225; 226; 227; 228; 229]%nat then "a"
  else if code_in n [186; 242; 243; 244; 245; 246]%nat then "o"
  else if (n =? 178)%nat then "2"
  else if (n =? 179)%nat then "3"
  else if (n =? 185)%nat then "1"
  else if (n =? 188)%nat then "14"
  else if (n =? 189)%nat then "12"
  else if (n =? 190)%nat then "34"
  else if code_in n [192; 193; 194; 195; 196; 197]%nat then "A"
  else if (n =? 199)%nat then "C"
  else if code_in n [200; 201; 202; 203]%nat then "E"
  else if code_in n [204; 205; 206; 207]%nat then "I"
  else if (n =? 209)%nat then "N"
  else if code_in n [210; 211; 212; 213; 214]%nat then "O"
  else if code_in n [217; 218; 219; 220]%nat then "U"
  else if (n =? 221)%nat then "Y"
  else if (n =? 231)%nat then "c"
  else if code_in n [232; 233; 234; 235]%nat then "e"
  else if code_in n [236; 237; 238; 239]%nat then "i"
  else if (n =? 241)%nat then "n"
  else if code_in n [249; 250; 251; 252]%nat then "u"
  else if code_in n [253; 255]%nat then "y"
  else EmptyString.

Fixpoint to_ascii (s : string) : string :=
  match s with
  | EmptyString => EmptyString
  | String c s' => nfkd_ascii c ++ to_ascii s'
  end.

Fixpoint seps_to_blank (s : string) : string :=
  match s with
  | EmptyString => EmptyString
  | String c s' =>
      String (if Ascii.eqb c "/"%char then " "%char else c) (seps_to_blank s')
  end.

(** [s.split()]: the maximal pieces without a blank; [cur] is the piece
    being read. *)
Fixpoint words (cur s : string) : list string :=
  match s with
  | EmptyString => if PyStr.truthy cur then [cur] else []
  | String c s' =>
      if PyStr.is_space c
      then (if PyStr.truthy cur then cur :: words EmptyString s'
            else words EmptyString s')
      else words (cur ++ String c EmptyString) s'
  end.

Fixpoint keep_safe (s : string) : string :=
  match s with
  | EmptyString => EmptyString
  | String c s' => if FileName.is_safe c then String c (keep_safe s') else keep_safe s'
  end.

Fixpoint lstrip_edge (s : string) : string :=
  match s with
  | EmptyString => EmptyString
  | String c s' => if FileName.is_edge c then lstrip_edge s' else s
  end.

Fixpoint rstrip_edge (s : string) : string :=
  match s with
  | EmptyString => EmptyString
  | String c s' =>
      match rstrip_edge s' with
      | EmptyString => if FileName.is_edge c then EmptyString else String c EmptyString
      | r => String c r
      end
  end.

End SecureFilename.

Definition secure_filename (s : string) : string :=
  SecureFilename.rstrip_edge
    (SecureFilename.lstrip_edge
       (SecureFilename.keep_safe
          (String.concat "_"
             (SecureFilename.words EmptyString
                (SecureFilename.seps_to_blank (SecureFilename.to_ascii s)))))).

(** [generate_password_hash] draws a fresh salt on every call; the salt is
    an explicit argument here.  The law is the contract between hashing
    and checking. *)

Class Werkzeug := {
  generate_password_hash : string -> string -> string;
  check_password_hash : string -> string -> bool;
  check_generate :
    forall salt password,
      check_password_hash (generate_password_hash salt password) password = true
}.

(** ** Requests and responses *)

Inductive Method := GET | POST.

Inductive Endpoint :=
| EpIndex
| EpRegister
| EpLogin
| EpDashboard
| EpNewProject
| EpProjectDetail (pid : Z).

(** The flashed messages, named after what they say. *)
Inductive Flash :=
| MsgFillAllFields      (* line 126, category danger *)
| MsgDuplicate          (* line 130, warning *)
| MsgWelcome            (* line 138, success *)
| MsgLoginOk            (* line 153, success *)
| MsgBadCredentials     (* line 156, danger *)
| MsgLoggedOut          (* line 164, info *)
| MsgTitleDescRequired  (* line 180, warning *)
| MsgProjectCreated     (* line 195, success *)
| MsgPriceRequired      (* line 208, warning *)
| MsgBidSent            (* line 214, success *)
| MsgBidAccepted        (* line 229, success *)
| MsgPleaseLogIn.       (* flask-login, on @login_required *)

Inductive Template := TplRegister | TplLogin | TplNewProject.

Inductive Response :=
| Redirect (target : Endpoint) (flash : option Flash)
| Render (tpl : Template)
| Abort (code : Z).

(** The error taxonomy of the handlers. *)
Definition InvalidInput_register : Response := Redirect EpRegister (Some MsgFillAllFields).
Definition DuplicateIdentity : Response := Redirect EpRegister (Some MsgDuplicate).
Definition InvalidCredentials : Response := Redirect EpLogin (Some MsgBadCredentials).
Definition NotFound : Response := Abort 404.
Definition Forbidden : Response := Abort 403.
(** What [@login_required] answers to an anonymous client. *)
Definition Unauthorized : Response := Redirect EpLogin (Some MsgPleaseLogIn).

Record Upload := mkUpload {
  filename : string;
  content : string
}.

(** What one request sees and may change: the tables, the upload directory
    (file name and content, one entry per name) and the user id kept in
    the session of the requesting browser. *)
Record Ctx := mkCtx {
  db : DB;
  uploads : list (string * string);
  session : option Z
}.

Definition set_db (d : DB) (c : Ctx) : Ctx := mkCtx d (uploads c) (session c).
Definition set_session (s : option Z) (c : Ctx) : Ctx := mkCtx (db c) (uploads c) s.
(** The directory without the file of that name. *)
Definition remove_file (name : string) (ups : list (string * string))
  : list (string * string) :=
  filter (fun e => negb (String.eqb (fst e) name)) ups.

(** [file.save(path)] writes the file, in place of a file of that name
    when there is one. *)
Definition save_upload (name data : string) (c : Ctx) : Ctx :=
  mkCtx (db c) ((name, data) :: remove_file name (uploads c)) (session c).

(** ** Queries *)

(** [User.query.get(id)] *)
Definition get_user (d : DB) (uid : Z) : option User :=
  find (fun u => user_id u =? uid) (users d).

(** [Project.query.get(pid)] on the rows of the table.  What a handler
    answers when there is no row depends on the key, see [missing_key]. *)
Definition get_project (d : DB) (pid : Z) : option Project :=
  find (fun p => project_id p =? pid) (projects d).

(** [load_user] (lines 83-85) resolves the session; [current_user] is
    anonymous when the session is empty or names no row. *)
Definition current_user (c : Ctx) : option User :=
  match session c with
  | Some uid => get_user (db c) uid
  | None => None
  end.

Definition is_authenticated (c : Ctx) : bool :=
  match current_user c with Some _ => true | None => false end.

(** [User.query.filter((User.username == a) | (User.email == b)).first()]:
    the query has no ORDER BY, and SQLite, the database of line 26,
    answers the disjunction of two indexed equalities one index after the
    other, so the row with that user name comes first and the row with
    that e-mail address only when there is none. *)
Definition first_user_matching (d : DB) (a b : string) : option User :=
  match find (fun u => String.eqb (username u) a) (users d) with
  | Some u => Some u
  | None => find (fun u => String.eqb (email u) b) (users d)
  end.

(** A key sent to SQLite is bound as a signed 64-bit integer; the driver
    raises [OverflowError], which Flask answers with status 500, for a
    larger one.  The URL converter [int] yields no negative number. *)
Definition key_ok (k : Z) : bool := k <? 9223372036854775808.

Definition ServerError : Response := Abort 500.

(** What [get_or_404] and [first_or_404] answer when no row is found: no
    stored key is out of range, so an unbindable key is a key without
    row. *)
Definition missing_key (k : Z) : Response :=
  if key_ok k then NotFound else ServerError.

(** [Bid.query.filter_by(id=bid_id, project_id=pid).first()] *)
Definition first_bid (d : DB) (bid pid : Z) : option Bid :=
  find (fun b => (bid_id b =? bid) && (bid_project_id b =? pid)) (bids d).

(** ** Row updates *)

Definition set_accepted (v : bool) (b : Bid) : Bid :=
  mkBid (bid_id b) (price b) (message b) (bid_project_id b) (bidder_id b) v.

(** [for b in project.bids: b.accepted = False] (lines 225-226): every row
    of the relationship, that is every Bid whose foreign key is the
    project. *)
Definition clear_project_bids (pid : Z) (l : list Bid) : list Bid :=
  map (fun b => if bid_project_id b =? pid then set_accepted false b else b) l.

(** [bid.accepted = True] (line 227): the session holds one object per
    primary key, so the write lands on the row with the key of [bid]. *)
Definition mark_accepted (bid : Z) (l : list Bid) : list Bid :=
  map (fun b => if bid_id b =? bid then set_accepted true b else b) l.

Definition add_user (u : User) (d : DB) : DB := mkDB (users d ++ [u]) (projects d) (bids d).
Definition add_project (p : Project) (d : DB) : DB := mkDB (users d) (projects d ++ [p]) (bids d).
Definition add_bid (b : Bid) (d : DB) : DB := mkDB (users d) (projects d) (bids d ++ [b]).
Definition set_bids (l : list Bid) (d : DB) : DB := mkDB (users d) (projects d) l.

Section Handlers.

Context {W : Werkzeug}.

(** ** Auth: register / login / logout (lines 115-165) *)

Definition register (m : Method) (username_field email_field password : string)
    (display_name_field : option string) (salt : string) (c : Ctx)
  : Response * Ctx :=
  if is_authenticated c then (Redirect EpIndex None, c)
  else match m with
  | POST =>
      let username := PyStr.strip username_field in
      let email := PyStr.lower (PyStr.strip email_field) in
      let display_name :=
        match display_name_field with Some n => n | None => username end in
      if negb (PyStr.truthy username) || negb (PyStr.truthy email)
         || negb (PyStr.truthy password)
      then (InvalidInput_register, c)
      else match first_user_matching (db c) username email with
      | Some _ => (DuplicateIdentity, c)
      | None =>
          let user :=
            mkUser (next_id (map user_id (users (db c)))) username display_name
                   email (generate_password_hash salt password) in
          (Redirect EpIndex (Some MsgWelcome),
           set_session (Some (user_id user)) (set_db (add_user user (db c)) c))
      end
  | GET => (Render TplRegister, c)
  end.

Definition login (m : Method) (username_field password : string) (c : Ctx)
  : Response * Ctx :=
  if is_authenticated c then (Redirect EpIndex None, c)
  else match m with
  | POST =>
      let username := PyStr.strip username_field in
      match first_user_matching (db c) username username with
      | Some user =>
          if check_password_hash (password_hash user) password
          then (Redirect EpDashboard (Some MsgLoginOk),
                set_session (Some (user_id user)) c)
          else (InvalidCredentials, c)
      | None => (InvalidCredentials, c)
      end
  | GET => (Render TplLogin, c)
  end.

Definition logout (c : Ctx) : Response * Ctx :=
  match current_user c with
  | None => (Unauthorized, c)
  | Some _ => (Redirect EpIndex (Some MsgLoggedOut), set_session None c)
  end.

(** ** Project creation and bidding (lines 170-230) *)

Definition new_project (m : Method) (title_field description_field budget_field : string)
    (file : option Upload) (now : Z) (c : Ctx) : Response * Ctx :=
  match current_user c with
  | None => (Unauthorized, c)
  | Some me =>
      match m with
      | POST =>
          let title := PyStr.strip title_field in
          let description := PyStr.strip description_field in
          let budget := PyStr.strip budget_field in
          if negb (PyStr.truthy title) || negb (PyStr.truthy description)
          then (Redirect EpNewProject (Some MsgTitleDescRequired), c)
          else
            let stored :=
              match file with
              | Some f =>
                  if PyStr.truthy (filename f) && allowed_file (filename f)
                  then Some (secure_filename
                               (PyStr.str_of_int now ++ "_" ++ filename f),
                             content f)
                  else None
              | None => None
              end in
            let c1 :=
              match stored with
              | Some (name, data) => save_upload name data c
              | None => c
              end in
            let project :=
              mkProject (next_id (map project_id (projects (db c)))) title
                        description budget (user_id me) (option_map fst stored) in
            (Redirect (EpProjectDetail (project_id project)) (Some MsgProjectCreated),
             set_db (add_project project (db c1)) c1)
      | GET => (Render TplNewProject, c)
      end
  end.

Definition place_bid (pid : Z) (price_field message_field : string) (c : Ctx)
  : Response * Ctx :=
  match current_user c with
  | None => (Unauthorized, c)
  | Some me =>
      match get_project (db c) pid with
      | None => (missing_key pid, c)
      | Some project =>
          let price := PyStr.strip price_field in
          let message := PyStr.strip message_field in
          if negb (PyStr.truthy price)
          then (Redirect (EpProjectDetail pid) (Some MsgPriceRequired), c)
          else
            let bid :=
              mkBid (next_id (map bid_id (bids (db c)))) price message
                    (project_id project) (user_id me) false in
            (Redirect (EpProjectDetail pid) (Some MsgBidSent),
             set_db (add_bid bid (db c)) c)
      end
  end.

Definition accept_bid (pid bid : Z) (c : Ctx) : Response * Ctx :=
  match current_user c with
  | None => (Unauthorized, c)
  | Some me =>
      match get_project (db c) pid with
      | None => (missing_key pid, c)
      | Some project =>
          if negb (owner_id project =? user_id me) then (Forbidden, c)
          else match first_bid (db c) bid (project_id project) with
          | None => (missing_key bid, c)
          | Some b =>
              let cleared := clear_project_bids (project_id project) (bids (db c)) in
              let marked := mark_accepted (bid_id b) cleared in
              (Redirect (EpProjectDetail pid) (Some MsgBidAccepted),
               set_db (set_bids marked (db c)) c)
          end
      end
  end.

End Handlers.

(** ** The application as a transition system

    Several browsers talk to one application; each has a session of its
    own, and all share the tables and the upload directory. *)

Inductive Request :=
| ReqRegister (m : Method) (username_field email_field password : string)
              (display_name_field : option string) (salt : string)
| ReqLogin (m : Method) (username_field password : string)
| ReqLogout
| ReqNewProject (m : Method) (title_field description_field budget_field : string)
                (file : option Upload) (now : Z)
| ReqPlaceBid (pid : Z) (price_field message_field : string)
| ReqAcceptBid (pid bid : Z).

Record World := mkWorld {
  w_db : DB;
  w_uploads : list (string * string);
  w_sessions : nat -> option Z
}.

Definition init_world : World := mkWorld empty_db [] (fun _ => None).

Definition update_session (client : nat) (s : option Z) (f : nat -> option Z)
  : nat -> option Z :=
  fun k => if Nat.eqb k client then s else f k.

Section System.

Context {W : Werkzeug}.

(** URL routing (the [@app.route] lines). *)
Definition handle (r : Request) (c : Ctx) : Response * Ctx :=
  match r with
  | ReqRegister m u e p d salt => register m u e p d salt c
  | ReqLogin m u p => login m u p c
  | ReqLogout => logout c
  | ReqNewProject m t d b f now => new_project m t d b f now c
  | ReqPlaceBid pid p msg => place_bid pid p msg c
  | ReqAcceptBid pid bid => accept_bid pid bid c
  end.

(** One request of browser [client]. *)
Definition step (client : nat) (r : Request) (w : World) : Response * World :=
  let '(resp, c) := handle r (mkCtx (w_db w) (w_uploads w) (w_sessions w client)) in
  (resp, mkWorld (db c) (uploads c) (update_session client (session c) (w_sessions w))).

(** Serving a list of requests in order, from the left. *)
Fixpoint run (trace : list (nat * Request)) (w : World) : World :=
  match trace with
  | [] => w
  | (client, r) :: rest => run rest (snd (step client r w))
  end.

Inductive reachable : World -> Prop :=
| reach_init : reachable init_world
| reach_step : forall w client r,
    reachable w -> reachable (snd (step client r w)).

End System.

(** ** Predicates on tables *)

(** The bids of project [pid] whose flag is set. *)
Definition accepted_on (pid : Z) (l : list Bid) : list Bid :=
  filter (fun b => (bid_project_id b =? pid) && accepted b) l.

(** Two rows that differ at most in the flag. *)
Definition same_but_flag (b b' : Bid) : Prop :=
  set_accepted false b = set_accepted false b'.

(** The two writes of [accept_bid] seen on one row. *)
Definition accept_row (pid k : Z) (b : Bid) : Bid :=
  let b1 := if bid_project_id b =? pid then set_accepted false b else b in
  if bid_id b1 =? k then set_accepted true b1 else b1.

(** What every reachable Bid table satisfies: keys are unique and no
    project has two flagged bids. *)
Definition bids_inv (l : list Bid) : Prop :=
  NoDup (map bid_id l) /\
  forall P, (List.length (accepted_on P l) <= 1)%nat.






(** A string that does not start with a blank. *)
Definition no_lead_space (s : string) : Prop :=
  match s with
  | EmptyString => True
  | String c _ => PyStr.is_space c = false
  end.

(** User rows as [register] writes them: the user name is stripped, the
    e-mail address stripped and in lower case. *)
Definition users_normal (l : list User) : Prop :=
  forall u, In u l ->
    PyStr.strip (username u) = username u
    /\ PyStr.lower (PyStr.strip (email u)) = email u.

(** ** The rows the handlers write *)

(** The row [register] writes. *)
Definition new_user {W : Werkzeug} (c : Ctx) (username_field email_field password : string)
    (display_name_field : option string) (salt : string) : User :=
  mkUser (next_id (map user_id (users (db c))))
         (PyStr.strip username_field)
         (match display_name_field with
          | Some n => n
          | None => PyStr.strip username_field
          end)
         (PyStr.lower (PyStr.strip email_field))
         (generate_password_hash salt password).

(** The row [new_project] writes. *)
Definition new_project_row (c : Ctx) (me : User)
    (title_field description_field budget_field : string) (img : option string)
  : Project :=
  mkProject (next_id (map project_id (projects (db c))))
            (PyStr.strip title_field) (PyStr.strip description_field)
            (PyStr.strip budget_field) (user_id me) img.

(** The row [place_bid] writes. *)
Definition new_bid (c : Ctx) (me : User) (pid : Z)
    (price_field message_field : string) : Bid :=
  mkBid (next_id (map bid_id (bids (db c)))) (PyStr.strip price_field)
        (PyStr.strip message_field) pid (user_id me) false.

(** ** Read-only routes (lines 102-110) *)

Inductive View :=
| ViewAbort (code : Z)
| ViewProject (p : Project)
| ViewFile (data : string).

(** [project_detail]: the project handed to the template, or 404, for an
    id that fits a key of the table (see [key_ok]). *)
Definition project_detail (pid : Z) (c : Ctx) : View :=
  match get_project (db c) pid with
  | Some p => ViewProject p
  | None => ViewAbort 404
  end.

(** [project.bids], the relationship of line 69: the Bid rows whose
    foreign key is the project, in table order. *)
Definition project_bids (d : DB) (p : Project) : list Bid :=
  filter (fun b => bid_project_id b =? project_id p) (bids d).

(** [uploaded_file]: the content of the file of that name in the upload
    directory, or 404 when there is none. *)
Definition uploaded_file (name : string) (c : Ctx) : View :=
  match find (fun e => String.eqb (fst e) name) (uploads c) with
  | Some e => ViewFile (snd e)
  | None => ViewAbort 404
  end.

(** ** Predicates on states *)

(** The answers of the success branches of the handlers. *)
Definition is_success (r : Response) : bool :=
  match r with
  | Redirect _ (Some MsgWelcome) | Redirect _ (Some MsgLoginOk)
  | Redirect _ (Some MsgLoggedOut) | Redirect _ (Some MsgProjectCreated)
  | Redirect _ (Some MsgBidSent) | Redirect _ (Some MsgBidAccepted) => true
  | _ => false
  end.

(** The unique constraints of the User table (lines 44 and 46). *)
Definition identities_unique (l : list User) : Prop :=
  NoDup (map username l) /\ NoDup (map email l).

(** Every foreign key names a row (lines 66, 76 and 77). *)
Definition references_resolve (d : DB) : Prop :=
  (forall p, In p (projects d) ->
     exists u, In u (users d) /\ user_id u = owner_id p)
  /\ (forall b, In b (bids d) ->
       (exists p, In p (projects d) /\ project_id p = bid_project_id b)
       /\ (exists u, In u (users d) /\ user_id u = bidder_id b)).

(** The fields the handlers insist on are filled in. *)
Definition required_filled (d : DB) : Prop :=
  (forall u, In u (users d) -> username u <> "" /\ email u <> "")
  /\ (forall p, In p (projects d) -> title p <> "" /\ description p <> "")
  /\ (forall b, In b (bids d) -> price b <> "").

(** What the tables of a reachable state satisfy, besides [bids_inv]. *)
Definition db_inv (d : DB) : Prop :=
  NoDup (map user_id (users d))
  /\ NoDup (map project_id (projects d))
  /\ identities_unique (users d)
  /\ references_resolve d
  /\ required_filled d.

(** ** A small instance of the hashing interface

    Used to run the handlers on concrete requests: the hash is the
    password behind a fixed tag. *)

Module Ref.

Definition generate_password_hash (salt password : string) : string :=
  "plain$" ++ password.

Definition check_password_hash (pwhash password : string) : bool :=
  String.eqb pwhash ("plain$" ++ password).

End Ref.

#[local] Instance ref_werkzeug : Werkzeug := {
  generate_password_hash := Ref.generate_password_hash;
  check_password_hash := Ref.check_password_hash;
  check_generate := fun _ password => String.eqb_refl ("plain$" ++ password)
}.

(** ** Concrete states and traces *)

(** The scenario of the specification: alice posts a project, bob and carol
    bid, alice accepts bob's bid and then carol's. *)
Definition scenario : list (nat * Request) :=
  [ (0%nat, ReqRegister POST "alice" "alice@x.com" "pw1" None "s1");
    (1%nat, ReqRegister POST "bob" "bob@x.com" "pw2" None "s2");
    (2%nat, ReqRegister POST "carol" "carol@x.com" "pw3" None "s3");
    (0%nat, ReqNewProject POST "Logo design" "A logo" "$100" None 1700000000);
    (1%nat, ReqPlaceBid 1 "$80" "");
    (0%nat, ReqAcceptBid 1 1);
    (2%nat, ReqPlaceBid 1 "$70" "");
    (0%nat, ReqAcceptBid 1 2) ].

(** A context in which alice (user 1) owns project 1, with a flagged bid of
    bob and a fresh bid of carol on it. *)
Definition ctx_two_bids : Ctx :=
  mkCtx (mkDB [ mkUser 1 "alice" "alice" "alice@x.com" "plain$pw1";
                mkUser 2 "bob" "bob" "bob@x.com" "plain$pw2";
                mkUser 3 "carol" "carol" "carol@x.com" "plain$pw3" ]
              [ mkProject 1 "Logo design" "A logo" "$100" 1 None ]
              [ mkBid 1 "$80" "" 1 2 true; mkBid 2 "$70" "" 1 3 false ])
        [] (Some 1).

(** Alice owns projects 1 and 2; the only bid is on project 1. *)
Definition ctx_two_projects : Ctx :=
  mkCtx (mkDB [ mkUser 1 "alice" "alice" "alice@x.com" "plain$pw1";
                mkUser 2 "bob" "bob" "bob@x.com" "plain$pw2" ]
              [ mkProject 1 "Logo design" "A logo" "$100" 1 None;
                mkProject 2 "Web site" "A site" "" 1 None ]
              [ mkBid 1 "$80" "" 1 2 true ])
        [] (Some 1).

(** A state with one account, seen by a browser that is not signed in. *)
Definition ctx_alice_only : Ctx :=
  mkCtx (mkDB [ mkUser 1 "alice" "alice" "alice@x.com" "plain$pw1" ] [] [])
        [] None.

(** A signed-in user about to post a project. *)
Definition ctx_alice_in : Ctx := set_session (Some 1) ctx_alice_only.

(** Alice owns two projects, each with one flagged bid. *)
Definition ctx_two_flagged : Ctx :=
  mkCtx (mkDB [ mkUser 1 "alice" "alice" "alice@x.com" "plain$pw1";
                mkUser 2 "bob" "bob" "bob@x.com" "plain$pw2" ]
              [ mkProject 1 "Logo design" "A logo" "$100" 1 None;
                mkProject 2 "Web site" "A site" "" 1 None ]
              [ mkBid 1 "$80" "" 1 2 true; mkBid 2 "$30" "" 2 2 true;
                mkBid 3 "$70" "" 1 2 false ])
        [] (Some 1).

(** Two accounts registered one after the other: the user name of the
    first is the e-mail address of the second. *)
Definition cross_trace : list (nat * Request) :=
  [ (0%nat, ReqRegister POST "bob@x.com" "a@x.com" "pa" None "s1");
    (1%nat, ReqRegister POST "bob" "bob@x.com" "pb" None "s2") ].

(** The same two accounts registered in the other order. *)
Definition cross_trace_rev : list (nat * Request) :=
  [ (1%nat, ReqRegister POST "bob" "bob@x.com" "pb" None "s2");
    (0%nat, ReqRegister POST "bob@x.com" "a@x.com" "pa" None "s1") ].

(** * Properties *)

(** ** Strings *)

Example allowed_photo_PNG : allowed_file "photo.PNG" = true.
Proof. reflexivity. Qed.

Example allowed_payload_exe : allowed_file "payload.exe" = false.
Proof. reflexivity. Qed.

Example allowed_no_dot : allowed_file "png" = false.
Proof. reflexivity. Qed.

Example allowed_two_dots : allowed_file "a.png.exe" = false.
Proof. reflexivity. Qed.

Example str_of_int_ex : PyStr.str_of_int 1700000000 = "1700000000".
Proof. reflexivity. Qed.

Example str_of_int_0 : PyStr.str_of_int 0 = "0".
Proof. reflexivity. Qed.

Example strip_ex : PyStr.strip "  a b  " = "a b".
Proof. reflexivity. Qed.

Example secure_filename_ex1 :
  secure_filename "1700000000_photo.PNG" = "1700000000_photo.PNG".
Proof. reflexivity. Qed.

Example secure_filename_ex2 :
  secure_filename "17_../../etc/my  passwd_" = "17_.._.._etc_my_passwd".
Proof. reflexivity. Qed.

(** ** The sanitiser on names it keeps *)







Module SanitiserFacts.







End SanitiserFacts.



(** ** Keys and queries *)

Lemma fold_max_ge (l : list Z) (x : Z) : In x l -> x <= fold_right Z.max 0 l.
Proof.
  induction l as [|y l IH]; simpl; [tauto|].
  intros [->|Hin]; [lia|]. specialize (IH Hin). lia.
Qed.

Lemma next_id_fresh (l : list Z) : ~ In (next_id l) l.
Proof.
  intros Hin. apply fold_max_ge in Hin. unfold next_id in Hin. lia.
Qed.

Lemma next_id_pos (l : list Z) : 0 < next_id l.
Proof.
  unfold next_id.
  assert (0 <= fold_right Z.max 0 l) by (induction l; simpl; lia).
  lia.
Qed.

Lemma NoDup_snoc {A} (l : list A) (x : A) : NoDup l -> ~ In x l -> NoDup (l ++ [x]).
Proof.
  intros Hl Hx. induction Hl as [|y l Hy Hl IH]; simpl.
  - constructor; [tauto | constructor].
  - constructor.
    + rewrite in_app_iff. simpl. intros [H|[H|[]]]; [tauto|].
      subst. apply Hx. now left.
    + apply IH. intros H. apply Hx. now right.
Qed.

Lemma NoDup_map_inj {A B} (f : A -> B) (l : list A) (x y : A) :
  NoDup (map f l) -> In x l -> In y l -> f x = f y -> x = y.
Proof.
  induction l as [|a l IH]; simpl; [tauto|].
  intros Hnd Hx Hy Hxy. inversion Hnd as [|? ? Ha Hl]; subst.
  destruct Hx as [->|Hx], Hy as [->|Hy]; trivial.
  - exfalso. apply Ha. rewrite Hxy. now apply in_map.
  - exfalso. apply Ha. rewrite <- Hxy. now apply in_map.
  - now apply IH.
Qed.

Lemma filter_map_length {A B} (h : A -> B) (p : B -> bool) (l : list A) :
  List.length (filter p (map h l)) = List.length (filter (fun x => p (h x)) l).
Proof.
  induction l as [|a l IH]; simpl; trivial.
  destruct (p (h a)); simpl; now rewrite IH.
Qed.

Lemma filter_length_le {A} (p q : A -> bool) (l : list A) :
  (forall x, In x l -> p x = true -> q x = true) ->
  (List.length (filter p l) <= List.length (filter q l))%nat.
Proof.
  induction l as [|a l IH]; simpl; intros H; [lia|].
  assert (IH' := IH (fun x Hx => H x (or_intror Hx))).
  destruct (p a) eqn:Hp.
  - rewrite (H a (or_introl eq_refl) Hp). simpl. lia.
  - destruct (q a); simpl; lia.
Qed.

Lemma filter_length_ext {A} (p q : A -> bool) (l : list A) :
  (forall x, In x l -> p x = q x) ->
  List.length (filter p l) = List.length (filter q l).
Proof.
  intros H. now rewrite (filter_ext_in p q l H).
Qed.

(** With unique keys at most one row answers to a key. *)
Lemma key_filter_le_1 (k : Z) (l : list Bid) :
  NoDup (map bid_id l) ->
  (List.length (filter (fun b => (bid_id b =? k)%Z) l) <= 1)%nat.
Proof.
  induction l as [|a l IH]; simpl; intros Hnd; [lia|].
  inversion Hnd as [|? ? Ha Hl]; subst.
  destruct (bid_id a =? k) eqn:Hk; [|now apply IH].
  simpl. apply Z.eqb_eq in Hk.
  assert (filter (fun b => bid_id b =? k) l = []) as ->; [|simpl; lia].
  destruct (filter (fun b => bid_id b =? k) l) as [|b t] eqn:Hf; trivial.
  exfalso. assert (In b (filter (fun b => bid_id b =? k) l)) as Hb
    by (rewrite Hf; now left).
  apply filter_In in Hb. destruct Hb as [Hb Hbk]. apply Z.eqb_eq in Hbk.
  apply Ha. rewrite Hk, <- Hbk. now apply in_map.
Qed.

Lemma get_project_id (d : DB) (pid : Z) (p : Project) :
  get_project d pid = Some p -> project_id p = pid /\ In p (projects d).
Proof.
  unfold get_project. intros H. apply find_some in H.
  destruct H as [Hin Heq]. apply Z.eqb_eq in Heq. tauto.
Qed.

Lemma first_bid_some (d : DB) (bid pid : Z) (b : Bid) :
  first_bid d bid pid = Some b ->
  In b (bids d) /\ bid_id b = bid /\ bid_project_id b = pid.
Proof.
  unfold first_bid. intros H. apply find_some in H.
  destruct H as [Hin Heq]. apply andb_true_iff in Heq.
  destruct Heq as [H1 H2]. apply Z.eqb_eq in H1, H2. tauto.
Qed.

Lemma first_bid_none (d : DB) (bid pid : Z) :
  first_bid d bid pid = None <->
  (forall b, In b (bids d) -> bid_id b = bid -> bid_project_id b <> pid).
Proof.
  unfold first_bid. split.
  - intros H b Hin Hid Hp.
    apply (find_none _ _ H) in Hin. subst.
    rewrite !Z.eqb_refl in Hin. discriminate.
  - intros H. destruct (find _ _) as [b|] eqn:Hf; trivial.
    apply find_some in Hf. destruct Hf as [Hin Heq].
    apply andb_true_iff in Heq. destruct Heq as [H1 H2].
    apply Z.eqb_eq in H1, H2. exfalso. now apply (H b).
Qed.

Lemma first_bid_exists (d : DB) (bid pid : Z) :
  (exists b, In b (bids d) /\ bid_id b = bid /\ bid_project_id b = pid) ->
  exists b, first_bid d bid pid = Some b.
Proof.
  intros (b & Hin & Hid & Hp).
  destruct (first_bid d bid pid) as [b'|] eqn:Hf; [now exists b'|].
  exfalso. rewrite first_bid_none in Hf. now apply (Hf b).
Qed.

(** ** What accept-bid does to the Bid table *)

Lemma accept_rows_map (pid k : Z) (l : list Bid) :
  mark_accepted k (clear_project_bids pid l) = map (accept_row pid k) l.
Proof.
  unfold mark_accepted, clear_project_bids. now rewrite map_map.
Qed.

Lemma accept_row_same_but_flag (pid k : Z) (b : Bid) :
  same_but_flag b (accept_row pid k b).
Proof.
  unfold same_but_flag, accept_row.
  destruct (bid_project_id b =? pid); simpl;
    destruct (bid_id b =? k); reflexivity.
Qed.

Lemma accept_row_on_project (pid k : Z) (b : Bid) :
  bid_project_id b = pid ->
  accept_row pid k b = set_accepted (bid_id b =? k) b.
Proof.
  intros H. unfold accept_row. rewrite H, Z.eqb_refl. simpl.
  destruct (bid_id b =? k); reflexivity.
Qed.

Lemma accept_row_project (pid k : Z) (b : Bid) :
  bid_project_id (accept_row pid k b) = bid_project_id b.
Proof.
  unfold accept_row.
  destruct (bid_project_id b =? pid); simpl; destruct (bid_id b =? k); reflexivity.
Qed.

Lemma accept_row_id (pid k : Z) (b : Bid) :
  bid_id (accept_row pid k b) = bid_id b.
Proof.
  unfold accept_row.
  destruct (bid_project_id b =? pid); simpl; destruct (bid_id b =? k); reflexivity.
Qed.

Lemma accept_row_other (pid k : Z) (b : Bid) :
  bid_project_id b <> pid -> bid_id b <> k -> accept_row pid k b = b.
Proof.
  intros Hp Hk. unfold accept_row.
  apply Z.eqb_neq in Hp, Hk. now rewrite Hp, Hk.
Qed.

Lemma Forall2_map_r {A} (R : A -> A -> Prop) (f : A -> A) (l : list A) :
  (forall x, R x (f x)) -> Forall2 R l (map f l).
Proof.
  intros H. induction l; simpl; constructor; auto.
Qed.

(** After the two writes the flagged bids of the project all carry the
    key of the target. *)
Lemma accepted_on_after_accept_same (pid k : Z) (l : list Bid) :
  NoDup (map bid_id l) ->
  (List.length (accepted_on pid (map (accept_row pid k) l)) <= 1)%nat.
Proof.
  intros Hnd. unfold accepted_on. rewrite filter_map_length.
  etransitivity; [|apply (key_filter_le_1 k l Hnd)].
  apply filter_length_le. intros x _ Hx.
  apply andb_true_iff in Hx. destruct Hx as [Hp Ha].
  rewrite accept_row_project in Hp. apply Z.eqb_eq in Hp.
  rewrite (accept_row_on_project _ _ _ Hp) in Ha. exact Ha.
Qed.

(** The bids of the other projects keep their flags, because the target
    is the only row with its key. *)
Lemma accepted_on_after_accept_other (pid k P : Z) (l : list Bid) (b : Bid) :
  NoDup (map bid_id l) ->
  In b l -> bid_id b = k -> bid_project_id b = pid ->
  P <> pid ->
  List.length (accepted_on P (map (accept_row pid k) l))
  = List.length (accepted_on P l).
Proof.
  intros Hnd Hb Hbk Hbp HP. unfold accepted_on. rewrite filter_map_length.
  apply filter_length_ext. intros x Hx.
  rewrite accept_row_project.
  destruct (bid_project_id x =? P) eqn:HxP; simpl; trivial.
  apply Z.eqb_eq in HxP.
  rewrite accept_row_other; trivial; [congruence|].
  intros Hxk. assert (x = b) by
    (apply (NoDup_map_inj bid_id l); trivial; congruence).
  congruence.
Qed.

Lemma map_accept_row_keys (pid k : Z) (l : list Bid) :
  map bid_id (map (accept_row pid k) l) = map bid_id l.
Proof.
  rewrite map_map. apply map_ext. intros. apply accept_row_id.
Qed.

(** ** Handlers that leave the Bid table alone *)

Ltac break_match :=
  match goal with
  | |- context [match ?x with _ => _ end] => destruct x eqn:?
  | |- context [if ?x then _ else _] => destruct x eqn:?
  end.

Ltac handler_cases := repeat (break_match; simpl in *; try congruence).

Section HandlerFacts.

Context {W : Werkzeug}.

Lemma register_bids m u e p d salt c :
  bids (db (snd (register m u e p d salt c))) = bids (db c).
Proof. unfold register. handler_cases; reflexivity. Qed.

Lemma login_db m u p c : db (snd (login m u p c)) = db c.
Proof. unfold login. handler_cases; reflexivity. Qed.

Lemma logout_db c : db (snd (logout c)) = db c.
Proof. unfold logout. handler_cases; reflexivity. Qed.

Lemma new_project_bids m t d b f now c :
  bids (db (snd (new_project m t d b f now c))) = bids (db c).
Proof. unfold new_project. handler_cases; reflexivity. Qed.

(** [place_bid] either changes nothing or appends one row whose flag is
    clear and whose key is new. *)
Lemma place_bid_bids pid p msg c :
  bids (db (snd (place_bid pid p msg c))) = bids (db c) \/
  exists b, bids (db (snd (place_bid pid p msg c))) = (bids (db c) ++ [b])%list
            /\ accepted b = false
            /\ bid_id b = next_id (map bid_id (bids (db c))).
Proof.
  unfold place_bid. handler_cases; try (left; reflexivity).
  right. eexists. split; [reflexivity|]. split; reflexivity.
Qed.

(** [accept_bid] either changes nothing or rewrites the flags around a
    row of the project. *)
Lemma accept_bid_bids pid bid c :
  bids (db (snd (accept_bid pid bid c))) = bids (db c) \/
  exists b, In b (bids (db c)) /\ bid_id b = bid /\ bid_project_id b = pid
            /\ bids (db (snd (accept_bid pid bid c)))
               = map (accept_row pid bid) (bids (db c)).
Proof.
  unfold accept_bid.
  destruct (current_user c) as [me|]; [|now left].
  destruct (get_project (db c) pid) as [project|] eqn:Hp; [|now left].
  apply get_project_id in Hp. destruct Hp as [Hp _].
  destruct (negb _); [now left|].
  destruct (first_bid (db c) bid (project_id project)) as [b|] eqn:Hb; [|now left].
  apply first_bid_some in Hb. destruct Hb as (Hin & Hid & Hbp).
  right. exists b. simpl. rewrite accept_rows_map. subst. tauto.
Qed.

End HandlerFacts.

(** ** The acceptance invariant *)

Lemma bids_inv_nil : bids_inv [].
Proof. split; [constructor | intros; simpl; lia]. Qed.

Lemma bids_inv_snoc (l : list Bid) (b : Bid) :
  bids_inv l -> accepted b = false -> bid_id b = next_id (map bid_id l) ->
  bids_inv (l ++ [b]).
Proof.
  intros [Hnd Hone] Hacc Hid. split.
  - rewrite map_app. simpl. apply NoDup_snoc; trivial.
    rewrite Hid. apply next_id_fresh.
  - intros P. unfold accepted_on. rewrite filter_app. simpl.
    rewrite Hacc, andb_false_r, app_nil_r. apply Hone.
Qed.

Lemma bids_inv_accept (l : list Bid) (pid k : Z) (b : Bid) :
  bids_inv l -> In b l -> bid_id b = k -> bid_project_id b = pid ->
  bids_inv (map (accept_row pid k) l).
Proof.
  intros [Hnd Hone] Hin Hid Hp. split.
  - now rewrite map_accept_row_keys.
  - intros P. destruct (Z.eq_dec P pid) as [->|HP].
    + now apply accepted_on_after_accept_same.
    + rewrite (accepted_on_after_accept_other pid k P l b); trivial.
Qed.

Section Invariant.

Context {W : Werkzeug}.

Lemma handle_bids_inv (r : Request) (c : Ctx) :
  bids_inv (bids (db c)) -> bids_inv (bids (db (snd (handle r c)))).
Proof.
  intros Hinv. destruct r; simpl.
  - now rewrite register_bids.
  - now rewrite login_db.
  - now rewrite logout_db.
  - now rewrite new_project_bids.
  - destruct (place_bid_bids pid price_field message_field c)
      as [->|(b & -> & Hacc & Hid)]; trivial.
    now apply bids_inv_snoc.
  - destruct (accept_bid_bids pid bid c) as [->|(b & Hin & Hid & Hp & ->)]; trivial.
    now apply (bids_inv_accept _ _ _ b).
Qed.

Lemma step_db (client : nat) (r : Request) (w : World) :
  w_db (snd (step client r w))
  = db (snd (handle r (mkCtx (w_db w) (w_uploads w) (w_sessions w client)))).
Proof.
  unfold step. destruct (handle r _) as [resp c]. reflexivity.
Qed.

Lemma reachable_bids_inv (w : World) :
  reachable w -> bids_inv (bids (w_db w)).
Proof.
  induction 1 as [|w client r Hw IH].
  - apply bids_inv_nil.
  - rewrite step_db. now apply (handle_bids_inv r (mkCtx _ _ _)).
Qed.

Lemma reachable_run (trace : list (nat * Request)) (w : World) :
  reachable w -> reachable (run trace w).
Proof.
  revert w. induction trace as [|[client r] rest IH]; simpl; intros w Hw; trivial.
  apply IH. now constructor.
Qed.

End Invariant.

(** C1.  In every state reached from the empty application by any sequence
    of requests (register, login, logout, create-project, place-bid,
    accept-bid, from any number of browsers), no project has more than one
    bid whose accepted flag is set. *)
Theorem at_most_one_accepted_bid {W : Werkzeug} (w : World) (P : Z) :
  reachable w -> (List.length (accepted_on P (bids (w_db w))) <= 1)%nat.
Proof.
  intros Hw. apply (reachable_bids_inv w Hw).
Qed.

Lemma at_most_one_accepted_bid_witness :
  reachable (run scenario init_world) /\
  (List.length (accepted_on 1 (bids (w_db (run scenario init_world)))) <= 1)%nat.
Proof.
  assert (H : reachable (run scenario init_world))
    by (apply reachable_run; constructor).
  split; [exact H | exact (at_most_one_accepted_bid _ 1 H)].
Defined.

Example scenario_bids :
  bids (w_db (run scenario init_world))
  = [ mkBid 1 "$80" "" 1 2 false; mkBid 2 "$70" "" 1 3 true ].
Proof. vm_compute. reflexivity. Qed.

Example scenario_first_accept :
  bids (w_db (run (firstn 6 scenario) init_world))
  = [ mkBid 1 "$80" "" 1 2 true ].
Proof. vm_compute. reflexivity. Qed.

(** ** Accept-bid *)

(** C2.  When the acting user owns the project and the target bid belongs
    to it, accept-bid succeeds; afterwards the Bid table holds the same
    rows up to flags, the target is flagged, every other bid of the project
    is not, and a bid of the project that was flagged before is now in the
    table with its flag cleared. *)
Theorem accept_bid_flags_target_only {W : Werkzeug}
    (c : Ctx) (pid bid : Z) (me : User) (project : Project) :
  current_user c = Some me ->
  get_project (db c) pid = Some project ->
  owner_id project = user_id me ->
  (exists b, In b (bids (db c)) /\ bid_id b = bid /\ bid_project_id b = pid) ->
  exists c',
    accept_bid pid bid c = (Redirect (EpProjectDetail pid) (Some MsgBidAccepted), c')
    /\ Forall2 same_but_flag (bids (db c)) (bids (db c'))
    /\ (exists t, In t (bids (db c')) /\ bid_id t = bid
                  /\ bid_project_id t = pid /\ accepted t = true)
    /\ (forall x, In x (bids (db c')) -> bid_project_id x = pid ->
                  accepted x = (bid_id x =? bid))
    /\ (forall x, In x (bids (db c)) -> bid_project_id x = pid ->
                  bid_id x <> bid -> accepted x = true ->
                  In (set_accepted false x) (bids (db c')))
    /\ users (db c') = users (db c)
    /\ projects (db c') = projects (db c)
    /\ uploads c' = uploads c
    /\ session c' = session c.
Proof.
  intros Hme Hproj Hown Hbid.
  destruct (get_project_id _ _ _ Hproj) as [Hpid _].
  destruct (first_bid_exists (db c) bid pid Hbid) as [b Hb].
  destruct (first_bid_some _ _ _ _ Hb) as (Hin & Hid & Hbp).
  unfold accept_bid. rewrite Hme, Hproj, Hown, Z.eqb_refl, Hpid, Hb. simpl.
  eexists. split; [reflexivity|]. simpl.
  rewrite accept_rows_map, Hid.
  split; [apply Forall2_map_r, accept_row_same_but_flag|].
  split.
  { exists (accept_row pid bid b). split; [now apply in_map|].
    rewrite accept_row_id, accept_row_project.
    rewrite (accept_row_on_project _ _ _ Hbp), Hid, Z.eqb_refl. now simpl. }
  split.
  { intros x Hx Hxp. apply in_map_iff in Hx. destruct Hx as (y & <- & Hy).
    rewrite accept_row_project in Hxp. rewrite accept_row_id.
    now rewrite (accept_row_on_project _ _ _ Hxp). }
  split.
  { intros x Hx Hxp Hxk _. apply in_map_iff. exists x. split; trivial.
    rewrite (accept_row_on_project _ _ _ Hxp).
    apply Z.eqb_neq in Hxk. now rewrite Hxk. }
  repeat split.
Qed.

Lemma accept_bid_flags_target_only_witness :
  exists c',
    accept_bid 1 2 ctx_two_bids
    = (Redirect (EpProjectDetail 1) (Some MsgBidAccepted), c')
    /\ bids (db c') = [ mkBid 1 "$80" "" 1 2 false; mkBid 2 "$70" "" 1 3 true ].
Proof.
  destruct (accept_bid_flags_target_only ctx_two_bids 1 2
              (mkUser 1 "alice" "alice" "alice@x.com" "plain$pw1")
              (mkProject 1 "Logo design" "A logo" "$100" 1 None))
    as (c' & Hc & _).
  - reflexivity.
  - reflexivity.
  - reflexivity.
  - exists (mkBid 2 "$70" "" 1 3 false). simpl. tauto.
  - exists c'. split; [exact Hc|].
    vm_compute in Hc. injection Hc as <-. reflexivity.
Defined.

(** C3.  Accept-bid by a signed-in user who does not own the project is
    answered with 403 and leaves tables, uploads and session as they
    were. *)
Theorem accept_bid_non_owner_forbidden {W : Werkzeug}
    (c : Ctx) (pid bid : Z) (me : User) (project : Project) :
  current_user c = Some me ->
  get_project (db c) pid = Some project ->
  owner_id project <> user_id me ->
  accept_bid pid bid c = (Forbidden, c).
Proof.
  intros Hme Hproj Hown. unfold accept_bid. rewrite Hme, Hproj.
  apply Z.eqb_neq in Hown. now rewrite Hown.
Qed.

Lemma accept_bid_non_owner_forbidden_witness :
  accept_bid 1 2 (set_session (Some 2) ctx_two_bids)
  = (Forbidden, set_session (Some 2) ctx_two_bids).
Proof.
  apply (accept_bid_non_owner_forbidden (set_session (Some 2) ctx_two_bids) 1 2
           (mkUser 2 "bob" "bob" "bob@x.com" "plain$pw2")
           (mkProject 1 "Logo design" "A logo" "$100" 1 None)).
  - reflexivity.
  - reflexivity.
  - simpl. lia.
Defined.

(** C4.  Accept-bid by the owner, naming a bid key that no row of the
    project carries (no such bid, or a bid of another project), leaves
    tables, uploads and session as they were.  It is answered with 404
    when the key fits a signed 64-bit integer; for a larger key the query
    of line 223 fails in the driver and the answer is 500, where the claim
    asks for 404. *)
Theorem accept_bid_foreign_bid_not_found {W : Werkzeug}
    (c : Ctx) (pid bid : Z) (me : User) (project : Project) :
  current_user c = Some me ->
  get_project (db c) pid = Some project ->
  owner_id project = user_id me ->
  (forall b, In b (bids (db c)) -> bid_id b = bid -> bid_project_id b <> pid) ->
  accept_bid pid bid c = (if key_ok bid then NotFound else ServerError, c).
Proof.
  intros Hme Hproj Hown Hnone.
  destruct (get_project_id _ _ _ Hproj) as [Hpid _].
  apply first_bid_none in Hnone.
  unfold accept_bid, missing_key.
  now rewrite Hme, Hproj, Hown, Z.eqb_refl, Hpid, Hnone.
Qed.

Lemma accept_bid_foreign_bid_not_found_witness :
  accept_bid 2 1 ctx_two_projects = (NotFound, ctx_two_projects)
  /\ accept_bid 1 7 ctx_two_projects = (NotFound, ctx_two_projects)
  /\ accept_bid 1 9223372036854775808 ctx_two_projects
     = (ServerError, ctx_two_projects).
Proof.
  split; [|split].
  - apply (accept_bid_foreign_bid_not_found ctx_two_projects 2 1
             (mkUser 1 "alice" "alice" "alice@x.com" "plain$pw1")
             (mkProject 2 "Web site" "A site" "" 1 None)).
    + reflexivity.
    + reflexivity.
    + reflexivity.
    + simpl. intros b [<-|[]] _. simpl. lia.
  - apply (accept_bid_foreign_bid_not_found ctx_two_projects 1 7
             (mkUser 1 "alice" "alice" "alice@x.com" "plain$pw1")
             (mkProject 1 "Logo design" "A logo" "$100" 1 None)).
    + reflexivity.
    + reflexivity.
    + reflexivity.
    + simpl. intros b [<-|[]]. simpl. lia.
  - apply (accept_bid_foreign_bid_not_found ctx_two_projects 1
             9223372036854775808
             (mkUser 1 "alice" "alice" "alice@x.com" "plain$pw1")
             (mkProject 1 "Logo design" "A logo" "$100" 1 None)).
    + reflexivity.
    + reflexivity.
    + reflexivity.
    + simpl. intros b [<-|[]]. simpl. lia.
Defined.

(** ** Register and login *)

Lemma truthy_true (s : string) : PyStr.truthy s = true <-> s <> "".
Proof. destruct s; simpl; split; congruence. Qed.


Lemma first_user_matching_none (d : DB) (a b : string) :
  first_user_matching d a b = None <->
  (forall u, In u (users d) -> username u <> a /\ email u <> b).
Proof.
  unfold first_user_matching. split.
  - intros H u Hin.
    destruct (find (fun u => String.eqb (username u) a) (users d)) eqn:Hn;
      [discriminate|].
    apply (find_none _ _ Hn) in Hin as H1. apply (find_none _ _ H) in Hin as H2.
    apply String.eqb_neq in H1, H2. tauto.
  - intros H.
    assert (Hn : find (fun u => String.eqb (username u) a) (users d) = None).
    { destruct (find (fun u => String.eqb (username u) a) (users d))
        as [u|] eqn:E; trivial.
      apply find_some in E. destruct E as [Hin Hm].
      apply String.eqb_eq in Hm. now elim (proj1 (H u Hin)). }
    rewrite Hn.
    destruct (find (fun u => String.eqb (email u) b) (users d))
      as [u|] eqn:E; trivial.
    apply find_some in E. destruct E as [Hin Hm].
    apply String.eqb_eq in Hm. now elim (proj2 (H u Hin)).
Qed.

Lemma first_user_matching_in (d : DB) (a b : string) (u : User) :
  first_user_matching d a b = Some u ->
  In u (users d) /\ (username u = a \/ email u = b).
Proof.
  unfold first_user_matching.
  destruct (find (fun u => String.eqb (username u) a) (users d)) as [v|] eqn:Hn.
  - intros H. injection H as <-. apply find_some in Hn.
    destruct Hn as [Hin Hm]. apply String.eqb_eq in Hm. tauto.
  - intros H. apply find_some in H.
    destruct H as [Hin Hm]. apply String.eqb_eq in Hm. tauto.
Qed.

Lemma first_user_matching_some (d : DB) (a b : string) (u : User) :
  In u (users d) -> username u = a \/ email u = b ->
  exists v, first_user_matching d a b = Some v.
Proof.
  intros Hin Hu. destruct (first_user_matching d a b) as [v|] eqn:Hf; [now exists v|].
  exfalso. rewrite first_user_matching_none in Hf.
  destruct (Hf u Hin). tauto.
Qed.

(** With a unique column, the row found by a value of the column is the
    row that carries it. *)
Lemma find_unique (f : User -> string) (l : list User) (u : User) :
  NoDup (map f l) -> In u l ->
  find (fun v => String.eqb (f v) (f u)) l = Some u.
Proof.
  induction l as [|a l IH]; simpl; intros Hnd Hin; [contradiction|].
  inversion Hnd as [|? ? Ha Hl]; subst.
  destruct Hin as [->|Hin].
  - now rewrite String.eqb_refl.
  - destruct (String.eqb (f a) (f u)) eqn:Hau; [|now apply IH].
    apply String.eqb_eq in Hau. exfalso. apply Ha. rewrite Hau. now apply in_map.
Qed.

Lemma first_user_matching_username (d : DB) (a b : string) (u : User) :
  NoDup (map username (users d)) -> In u (users d) -> username u = a ->
  first_user_matching d a b = Some u.
Proof.
  intros Hnd Hin <-. unfold first_user_matching.
  now rewrite (find_unique username (users d) u Hnd Hin).
Qed.

Lemma first_user_matching_email (d : DB) (a b : string) (u : User) :
  NoDup (map email (users d)) -> In u (users d) -> email u = b ->
  (forall v, In v (users d) -> username v <> a) ->
  first_user_matching d a b = Some u.
Proof.
  intros Hnd Hin <- Hname. unfold first_user_matching.
  assert (Hn : find (fun v => String.eqb (username v) a) (users d) = None).
  { destruct (find _ _) as [v|] eqn:Hf; trivial.
    apply find_some in Hf. destruct Hf as [Hv Hm]. apply String.eqb_eq in Hm.
    now elim (Hname v Hv). }
  rewrite Hn. now apply find_unique.
Qed.

(** C5, as stated, fails: a colliding registration with an empty password
    is answered with the missing-field message, and one sent from a
    signed-in browser is sent to the index page; neither is the
    duplicate-identity answer. *)
Lemma register_collision_other_answers :
  (exists u, In u (users (db ctx_alice_only)) /\ username u = "alice")
  /\ fst (register POST "alice" "new@x.com" "" None "s" ctx_alice_only)
     = InvalidInput_register
  /\ fst (register POST "alice" "new@x.com" "" None "s" ctx_alice_only)
     <> DuplicateIdentity
  /\ fst (register POST "alice" "new@x.com" "pw" None "s"
            (set_session (Some 1) ctx_alice_only))
     = Redirect EpIndex None
  /\ fst (register POST "alice" "new@x.com" "pw" None "s"
            (set_session (Some 1) ctx_alice_only))
     <> DuplicateIdentity.
Proof.
  split; [eexists; split; [left; reflexivity | reflexivity]|].
  repeat split; try reflexivity; vm_compute; discriminate.
Qed.

(** C5, amended.  A register call whose stripped username, or stripped and
    lower-cased email, is that of an existing User changes nothing: no row
    is added and the session stays as it was.  When it is a POST from a
    browser that is not signed in, with username, email and password
    filled in, the answer is the duplicate-identity one. *)
Theorem register_collision_rejected {W : Werkzeug}
    (c : Ctx) (m : Method) (username_field email_field password : string)
    (display_name_field : option string) (salt : string) (u : User) :
  In u (users (db c)) ->
  username u = PyStr.strip username_field
  \/ email u = PyStr.lower (PyStr.strip email_field) ->
  snd (register m username_field email_field password display_name_field salt c) = c
  /\ fst (register m username_field email_field password display_name_field salt c)
     <> Redirect EpIndex (Some MsgWelcome)
  /\ (is_authenticated c = false -> m = POST ->
      PyStr.strip username_field <> "" ->
      PyStr.lower (PyStr.strip email_field) <> "" ->
      password <> "" ->
      register m username_field email_field password display_name_field salt c
      = (DuplicateIdentity, c)).
Proof.
  intros Hin Hu.
  destruct (first_user_matching_some (db c) _ _ u Hin Hu) as [v Hv].
  unfold register. rewrite Hv.
  split; [|split].
  - handler_cases; reflexivity.
  - handler_cases; discriminate.
  - intros -> -> Hn He Hp.
    apply truthy_true in Hn, He, Hp. now rewrite Hn, He, Hp.
Qed.

Lemma register_collision_rejected_witness :
  register POST " alice " "Other@X.com" "pw" None "s" ctx_alice_only
  = (DuplicateIdentity, ctx_alice_only).
Proof.
  apply (register_collision_rejected ctx_alice_only POST " alice " "Other@X.com"
           "pw" None "s" (mkUser 1 "alice" "alice" "alice@x.com" "plain$pw1")).
  - simpl. tauto.
  - left. reflexivity.
  - reflexivity.
  - reflexivity.
  - vm_compute. discriminate.
  - vm_compute. discriminate.
  - discriminate.
Defined.

(** C6, as stated, fails.  After [cross_trace] the identifier
    ["bob@x.com"] is the e-mail address of the second account and ["pb"]
    verifies against its hash, yet login is refused, because the row with
    that user name, the other account, is the one the query returns; the
    same happens when the two accounts were registered in the other order.
    And from a browser that is signed in, a login with a wrong password is
    sent to the index page, not refused. *)
Lemma login_cross_match_refused :
  (exists u, In u (users (w_db (run cross_trace init_world)))
             /\ email u = "bob@x.com"
             /\ check_password_hash (password_hash u) "pb" = true)
  /\ fst (step 2 (ReqLogin POST "bob@x.com" "pb") (run cross_trace init_world))
     = InvalidCredentials
  /\ w_sessions
       (snd (step 2 (ReqLogin POST "bob@x.com" "pb") (run cross_trace init_world)))
       2%nat = None
  /\ (exists u, In u (users (w_db (run cross_trace_rev init_world)))
                /\ email u = "bob@x.com"
                /\ check_password_hash (password_hash u) "pb" = true)
  /\ fst (step 2 (ReqLogin POST "bob@x.com" "pb")
            (run cross_trace_rev init_world))
     = InvalidCredentials
  /\ fst (login POST "alice" "wrong" (set_session (Some 1) ctx_alice_only))
     = Redirect EpIndex None
  /\ fst (login POST "alice" "wrong" (set_session (Some 1) ctx_alice_only))
     <> InvalidCredentials.
Proof.
  split.
  { exists (mkUser 2 "bob" "bob" "bob@x.com" "plain$pb"). vm_compute. tauto. }
  split; [reflexivity|]. split; [reflexivity|].
  split.
  { exists (mkUser 1 "bob" "bob" "bob@x.com" "plain$pb"). vm_compute. tauto. }
  split; [reflexivity|]. split; [reflexivity|].
  vm_compute. discriminate.
Qed.

(** C6, amended.  A login POST from a browser that is not signed in
    compares the stripped identifier with the user name and with the
    e-mail address of every row, user names and addresses being unique.
    If no row answers, it is refused and nothing changes.  Otherwise one
    row decides: the row with that user name if there is one, and the row
    with that e-mail address if there is none.  If the password verifies
    against the hash of that row, the session is bound to it; if not, the
    call is refused and nothing changes. *)
Theorem login_matched_row_decides {W : Werkzeug}
    (c : Ctx) (username_field password : string) :
  is_authenticated c = false ->
  NoDup (map username (users (db c))) ->
  NoDup (map email (users (db c))) ->
  ((forall u, In u (users (db c)) ->
              username u <> PyStr.strip username_field
              /\ email u <> PyStr.strip username_field) ->
   login POST username_field password c = (InvalidCredentials, c))
  /\ (forall u,
        In u (users (db c)) ->
        username u = PyStr.strip username_field
        \/ (email u = PyStr.strip username_field
            /\ forall v, In v (users (db c)) ->
                         username v <> PyStr.strip username_field) ->
        (check_password_hash (password_hash u) password = true ->
         login POST username_field password c
         = (Redirect EpDashboard (Some MsgLoginOk),
            set_session (Some (user_id u)) c))
        /\ (check_password_hash (password_hash u) password = false ->
            login POST username_field password c = (InvalidCredentials, c))).
Proof.
  intros Hanon Hnames Hmails. unfold login. rewrite Hanon. split.
  - intros Hnone. apply first_user_matching_none in Hnone. now rewrite Hnone.
  - intros u Hin Hu.
    assert (Hf : first_user_matching (db c) (PyStr.strip username_field)
                   (PyStr.strip username_field) = Some u).
    { destruct Hu as [Hu|[Hu Hno]].
      - now apply first_user_matching_username.
      - now apply first_user_matching_email. }
    rewrite Hf. split; intros ->; reflexivity.
Qed.

(** One account: a login by e-mail address, a wrong password, an unknown
    identifier.  Two accounts, after [cross_trace_rev]: the identifier
    ["bob@x.com"] is decided by the account of that user name, the second
    one registered, although the first carries it as its address. *)
Lemma login_matched_row_decides_witness :
  login POST " alice@x.com" "pw1" ctx_alice_only
  = (Redirect EpDashboard (Some MsgLoginOk), set_session (Some 1) ctx_alice_only)
  /\ login POST "alice" "wrongpass" ctx_alice_only
     = (InvalidCredentials, ctx_alice_only)
  /\ login POST "nobody" "pw1" ctx_alice_only
     = (InvalidCredentials, ctx_alice_only)
  /\ login POST "bob@x.com" "pa"
       (mkCtx (w_db (run cross_trace_rev init_world)) [] None)
     = (Redirect EpDashboard (Some MsgLoginOk),
        mkCtx (w_db (run cross_trace_rev init_world)) [] (Some 2)).
Proof.
  split; [|split; [|split]].
  - apply (proj2 (login_matched_row_decides ctx_alice_only " alice@x.com" "pw1"
                    eq_refl
                    (NoDup_cons _ (fun H : In _ [] => H) (NoDup_nil _))
                    (NoDup_cons _ (fun H : In _ [] => H) (NoDup_nil _)))
             (mkUser 1 "alice" "alice" "alice@x.com" "plain$pw1")).
    + simpl. tauto.
    + right. split; [reflexivity|].
      simpl. intros v [<-|[]]. vm_compute. discriminate.
    + reflexivity.
  - apply (proj2 (login_matched_row_decides ctx_alice_only "alice" "wrongpass"
                    eq_refl
                    (NoDup_cons _ (fun H : In _ [] => H) (NoDup_nil _))
                    (NoDup_cons _ (fun H : In _ [] => H) (NoDup_nil _)))
             (mkUser 1 "alice" "alice" "alice@x.com" "plain$pw1")).
    + simpl. tauto.
    + left. reflexivity.
    + reflexivity.
  - apply (proj1 (login_matched_row_decides ctx_alice_only "nobody" "pw1" eq_refl
                    (NoDup_cons _ (fun H : In _ [] => H) (NoDup_nil _))
                    (NoDup_cons _ (fun H : In _ [] => H) (NoDup_nil _)))).
    simpl. intros u [<-|[]]. simpl. split; discriminate.
  - apply (proj2 (login_matched_row_decides
                    (mkCtx (w_db (run cross_trace_rev init_world)) [] None)
                    "bob@x.com" "pa" eq_refl
                    ltac:(vm_compute; repeat constructor; simpl;
                          intuition discriminate)
                    ltac:(vm_compute; repeat constructor; simpl;
                          intuition discriminate))
             (mkUser 2 "bob@x.com" "bob@x.com" "a@x.com" "plain$pa")).
    + vm_compute. tauto.
    + left. reflexivity.
    + reflexivity.
Defined.

Lemma User_eq_dec (a b : User) : {a = b} + {a <> b}.
Proof. decide equality; try apply string_dec; apply Z.eq_dec. Defined.

(** When exactly one row answers to the identifier, that row decides, and
    the claim holds as the specification words it. *)
Lemma login_unique_match {W : Werkzeug}
    (c : Ctx) (username_field password : string) (u : User) :
  is_authenticated c = false ->
  In u (users (db c)) ->
  username u = PyStr.strip username_field
  \/ email u = PyStr.strip username_field ->
  (forall v, In v (users (db c)) -> v <> u ->
             username v <> PyStr.strip username_field
             /\ email v <> PyStr.strip username_field) ->
  check_password_hash (password_hash u) password = true ->
  login POST username_field password c
  = (Redirect EpDashboard (Some MsgLoginOk), set_session (Some (user_id u)) c).
Proof.
  intros Hanon Hin Hu Hothers Hcheck.
  unfold login. rewrite Hanon.
  destruct (first_user_matching_some (db c) _ _ u Hin Hu) as [v Hv].
  rewrite Hv. apply first_user_matching_in in Hv. destruct Hv as [Hvin Hvm].
  assert (v = u) as ->.
  { destruct (User_eq_dec v u) as [|Hne]; trivial.
    destruct (Hothers v Hvin Hne) as [H1 H2]. tauto. }
  now rewrite Hcheck.
Qed.

(** ** Uploads *)

Lemma rsplit_dot_none (s : string) :
  PyStr.rsplit_dot s = None <-> PyStr.contains_dot s = false.
Proof.
  induction s as [|c s IH]; simpl; [tauto|].
  destruct (PyStr.rsplit_dot s) as [[h t]|].
  - split; [discriminate|]. intros H. apply orb_false_iff in H.
    destruct H as [_ H]. apply IH in H. discriminate.
  - destruct (Ascii.eqb c "."); simpl; split; try discriminate; trivial.
    + intros _. now apply IH.
Qed.

Lemma rsplit_dot_spec (s h t : string) :
  PyStr.rsplit_dot s = Some (h, t) <->
  s = h ++ "." ++ t /\ PyStr.contains_dot t = false.
Proof.
  split.
  - revert h. induction s as [|c s IH]; simpl; intros h; [discriminate|].
    destruct (PyStr.rsplit_dot s) as [[h' t']|] eqn:Hs.
    + intros H. injection H as <- <-.
      destruct (IH h' eq_refl) as [-> Ht]. now split.
    + destruct (Ascii.eqb c ".") eqn:Hc; [|discriminate].
      intros H. injection H as <- <-. apply Ascii.eqb_eq in Hc. subst c.
      split; trivial. now apply rsplit_dot_none.
  - intros [-> Ht]. induction h as [|c h IH]; simpl in *.
    + apply rsplit_dot_none in Ht. now rewrite Ht.
    + now rewrite IH.
Qed.

Lemma contains_dot_app (a b : string) :
  PyStr.contains_dot (a ++ b) = PyStr.contains_dot a || PyStr.contains_dot b.
Proof.
  induction a as [|c a IH]; simpl; trivial. now rewrite IH, orb_assoc.
Qed.









(** ** The upload directory *)

Lemma uploaded_file_saved (name data : string) (c : Ctx) :
  uploaded_file name (save_upload name data c) = ViewFile data.
Proof.
  unfold uploaded_file, save_upload. simpl. now rewrite String.eqb_refl.
Qed.

Lemma find_remove_file_other (name other : string) (ups : list (string * string)) :
  other <> name ->
  find (fun e => String.eqb (fst e) other) (remove_file name ups)
  = find (fun e => String.eqb (fst e) other) ups.
Proof.
  intros Hne. induction ups as [|[n d] ups IH]; simpl; trivial.
  destruct (String.eqb n name) eqn:Hn; simpl.
  - apply String.eqb_eq in Hn. subst n.
    assert (H : String.eqb name other = false)
      by (apply String.eqb_neq; congruence).
    now rewrite H.
  - destruct (String.eqb n other); trivial.
Qed.

Lemma uploaded_file_other (name other data : string) (c : Ctx) :
  other <> name ->
  uploaded_file other (save_upload name data c) = uploaded_file other c.
Proof.
  intros Hne. unfold uploaded_file, save_upload. simpl.
  assert (H : String.eqb name other = false)
    by (apply String.eqb_neq; congruence).
  now rewrite H, find_remove_file_other.
Qed.




Example new_project_payload_exe :
  new_project POST "Logo design" "A logo" "$100"
    (Some (mkUpload "payload.exe" "MZ")) 1700000000 ctx_alice_in
  = (Redirect (EpProjectDetail 1) (Some MsgProjectCreated),
     mkCtx (mkDB (users (db ctx_alice_in))
                 [ mkProject 1 "Logo design" "A logo" "$100" 1 None ] [])
           [] (Some 1)).
Proof. vm_compute. reflexivity. Qed.

Example new_project_photo_PNG :
  new_project POST "Logo design" "A logo" "$100"
    (Some (mkUpload "photo.PNG" "bytes")) 1700000000 ctx_alice_in
  = (Redirect (EpProjectDetail 1) (Some MsgProjectCreated),
     mkCtx (mkDB (users (db ctx_alice_in))
                 [ mkProject 1 "Logo design" "A logo" "$100" 1
                     (Some "1700000000_photo.PNG") ] [])
           [ ("1700000000_photo.PNG", "bytes") ] (Some 1)).
Proof. vm_compute. reflexivity. Qed.

(** ** Place-bid *)

(** C9, as stated, fails: a price made of blanks is a non-empty string, and
    the handler, which strips the field first, refuses it and inserts
    nothing. *)
Lemma place_bid_blank_price_refused :
  current_user ctx_two_projects
  = Some (mkUser 1 "alice" "alice" "alice@x.com" "plain$pw1")
  /\ get_project (db ctx_two_projects) 2
     = Some (mkProject 2 "Web site" "A site" "" 1 None)
  /\ " " <> ""
  /\ place_bid 2 " " "hello" ctx_two_projects
     = (Redirect (EpProjectDetail 2) (Some MsgPriceRequired), ctx_two_projects).
Proof.
  repeat split; try reflexivity. discriminate.
Qed.

(** C9, amended.  A place-bid call by a signed-in user on an existing
    project, with a price that is not empty once stripped, appends one Bid
    with the stripped price and message, that project, the acting user as
    bidder and a clear flag.  Nothing is asked about who owns the project
    or about earlier bids. *)
Theorem place_bid_inserts {W : Werkzeug}
    (c : Ctx) (pid : Z) (price_field message_field : string)
    (me : User) (project : Project) :
  current_user c = Some me ->
  get_project (db c) pid = Some project ->
  PyStr.strip price_field <> "" ->
  place_bid pid price_field message_field c
  = (Redirect (EpProjectDetail pid) (Some MsgBidSent),
     set_db (add_bid (mkBid (next_id (map bid_id (bids (db c))))
                            (PyStr.strip price_field)
                            (PyStr.strip message_field)
                            pid (user_id me) false)
                     (db c)) c).
Proof.
  intros Hme Hproj Hprice. apply truthy_true in Hprice.
  destruct (get_project_id _ _ _ Hproj) as [Hpid _].
  unfold place_bid. now rewrite Hme, Hproj, Hprice, Hpid.
Qed.

(** The owner bids on her own project, twice. *)
Lemma place_bid_inserts_witness :
  exists c1 c2,
    place_bid 2 " $50 " "mine" ctx_two_projects
    = (Redirect (EpProjectDetail 2) (Some MsgBidSent), c1)
    /\ place_bid 2 "$40" "" c1
       = (Redirect (EpProjectDetail 2) (Some MsgBidSent), c2)
    /\ bids (db c2)
       = [ mkBid 1 "$80" "" 1 2 true; mkBid 2 "$50" "mine" 2 1 false;
           mkBid 3 "$40" "" 2 1 false ].
Proof.
  eexists. eexists. split; [|split].
  - apply (place_bid_inserts ctx_two_projects 2 " $50 " "mine"
             (mkUser 1 "alice" "alice" "alice@x.com" "plain$pw1")
             (mkProject 2 "Web site" "A site" "" 1 None)).
    + reflexivity.
    + reflexivity.
    + vm_compute. discriminate.
  - apply (place_bid_inserts _ 2 "$40" ""
             (mkUser 1 "alice" "alice" "alice@x.com" "plain$pw1")
             (mkProject 2 "Web site" "A site" "" 1 None)).
    + reflexivity.
    + reflexivity.
    + vm_compute. discriminate.
  - vm_compute. reflexivity.
Defined.

Section OnlyAccept.

Context {W : Werkzeug}.

(** A request other than accept-bid leaves every flag as it was: a flagged
    row of the new table is a row of the old one. *)
Lemma handle_flags_from_accept_only (r : Request) (c : Ctx) (b : Bid) :
  (forall pid bid, r <> ReqAcceptBid pid bid) ->
  In b (bids (db (snd (handle r c)))) -> accepted b = true ->
  In b (bids (db c)).
Proof.
  intros Hr Hin Hacc. destruct r; simpl in Hin.
  - now rewrite register_bids in Hin.
  - now rewrite login_db in Hin.
  - now rewrite logout_db in Hin.
  - now rewrite new_project_bids in Hin.
  - destruct (place_bid_bids pid price_field message_field c)
      as [Heq|(b' & Heq & Hb' & _)]; rewrite Heq in Hin; trivial.
    apply in_app_or in Hin. destruct Hin as [Hin|[<-|[]]]; trivial.
    congruence.
  - now elim (Hr pid bid).
Qed.

End OnlyAccept.

(** C10.  A successful place-bid call appends exactly one Bid, whose flag
    is clear, and leaves every earlier row, flags included, in place; and
    whatever request is served, a bid that is flagged afterwards and was not
    a flagged row before shows that the request was an accept-bid. *)
Theorem place_bid_new_bid_not_accepted {W : Werkzeug}
    (c c' : Ctx) (pid : Z) (price_field message_field : string) :
  place_bid pid price_field message_field c
  = (Redirect (EpProjectDetail pid) (Some MsgBidSent), c') ->
  (exists b, bids (db c') = (bids (db c) ++ [b])%list /\ accepted b = false)
  /\ (forall (r : Request) (c0 : Ctx) (b : Bid),
        In b (bids (db (snd (handle r c0)))) -> accepted b = true ->
        ~ In b (bids (db c0)) ->
        exists p k, r = ReqAcceptBid p k).
Proof.
  intros Hcall. split.
  - unfold place_bid in Hcall.
    destruct (current_user c) as [me|]; [|discriminate].
    destruct (get_project (db c) pid) as [project|];
      [|unfold missing_key in Hcall; destruct (key_ok pid); discriminate].
    destruct (negb _); [discriminate|].
    injection Hcall as <-. simpl. eexists. split; reflexivity.
  - intros r c0 b Hin Hacc Hnew.
    destruct r;
      try (exfalso; apply Hnew;
           eapply handle_flags_from_accept_only; [|exact Hin|exact Hacc];
           intros; discriminate).
    eexists. eexists. reflexivity.
Qed.

Lemma place_bid_new_bid_not_accepted_witness :
  exists b,
    bids (db (snd (place_bid 1 "$60" "" ctx_two_projects)))
    = (bids (db ctx_two_projects) ++ [b])%list
    /\ accepted b = false.
Proof.
  apply (place_bid_new_bid_not_accepted ctx_two_projects
           (snd (place_bid 1 "$60" "" ctx_two_projects)) 1 "$60" "").
  vm_compute. reflexivity.
Defined.

(** ** The recorded upload name *)









Lemma is_edge_lower_char (c : ascii) :
  FileName.is_edge (PyStr.lower_char c) = FileName.is_edge c.
Proof. destruct c as [[] [] [] [] [] [] [] []]; reflexivity. Qed.

Lemma ends_with_edge_lower (s : string) :
  FileName.ends_with_edge (PyStr.lower s) = FileName.ends_with_edge s.
Proof.
  induction s as [|c s IH]; trivial.
  destruct s as [|c' s].
  - simpl. apply is_edge_lower_char.
  - exact IH.
Qed.











(** ** What the sanitiser does to any name *)

Module SanitiserSteps.

Import SecureFilename.










End SanitiserSteps.








(** Names with characters the sanitiser does not keep: blanks and path
    separators turn into underscores, accented letters lose their accent,
    other characters disappear. *)
Example new_project_unsafe_names :
  secure_filename (PyStr.str_of_int 1700000000 ++ "_" ++ "my photo (1).png")
  = "1700000000_my_photo_1.png"
  /\ secure_filename (PyStr.str_of_int 1700000000 ++ "_" ++ "../../evil.png")
     = "1700000000_.._.._evil.png"
  /\ secure_filename (String (ascii_of_nat 233) "t" ++ String (ascii_of_nat 233) ".png")
     = "ete.png"
  /\ secure_filename (String "a" (String (ascii_of_nat 133) "b.png")) = "ab.png"
  /\ secure_filename (String "a" (String (ascii_of_nat 160) "b.png")) = "a_b.png".
Proof. repeat split; reflexivity. Qed.

(** ** Stored identities are normalised *)

Lemma lstrip_no_lead (s : string) : no_lead_space (PyStr.lstrip s).
Proof.
  induction s as [|c s IH]; simpl; trivial.
  destruct (PyStr.is_space c) eqn:Hc; trivial.
Qed.

Lemma lstrip_fix (s : string) : no_lead_space s -> PyStr.lstrip s = s.
Proof. destruct s as [|c s]; simpl; trivial. now intros ->. Qed.

Lemma rstrip_no_lead (s : string) :
  no_lead_space s -> no_lead_space (PyStr.rstrip s).
Proof.
  destruct s as [|c s]; simpl; trivial. intros Hc.
  destruct (PyStr.rstrip s); [rewrite Hc|]; exact Hc.
Qed.

Lemma rstrip_idem (s : string) : PyStr.rstrip (PyStr.rstrip s) = PyStr.rstrip s.
Proof.
  induction s as [|c s IH]; simpl; trivial.
  destruct (PyStr.rstrip s) as [|c' r] eqn:Hr.
  - destruct (PyStr.is_space c) eqn:Hc; simpl; trivial. now rewrite Hc.
  - change (PyStr.rstrip (String c (String c' r)))
      with (match PyStr.rstrip (String c' r) with
            | EmptyString =>
                if PyStr.is_space c then EmptyString else String c EmptyString
            | r0 => String c r0
            end).
    now rewrite IH.
Qed.

Lemma strip_idem (s : string) : PyStr.strip (PyStr.strip s) = PyStr.strip s.
Proof.
  unfold PyStr.strip.
  rewrite (lstrip_fix (PyStr.rstrip (PyStr.lstrip s))).
  - apply rstrip_idem.
  - apply rstrip_no_lead, lstrip_no_lead.
Qed.

Lemma is_space_lower_char (c : ascii) :
  PyStr.is_space (PyStr.lower_char c) = PyStr.is_space c.
Proof. destruct c as [[] [] [] [] [] [] [] []]; reflexivity. Qed.

Lemma lower_char_idem (c : ascii) :
  PyStr.lower_char (PyStr.lower_char c) = PyStr.lower_char c.
Proof. destruct c as [[] [] [] [] [] [] [] []]; reflexivity. Qed.

Lemma lower_idem (s : string) : PyStr.lower (PyStr.lower s) = PyStr.lower s.
Proof.
  induction s as [|c s IH]; simpl; trivial. now rewrite lower_char_idem, IH.
Qed.

Lemma lstrip_lower (s : string) :
  PyStr.lstrip (PyStr.lower s) = PyStr.lower (PyStr.lstrip s).
Proof.
  induction s as [|c s IH]; simpl; trivial.
  rewrite is_space_lower_char. destruct (PyStr.is_space c); trivial.
Qed.

Lemma rstrip_lower (s : string) :
  PyStr.rstrip (PyStr.lower s) = PyStr.lower (PyStr.rstrip s).
Proof.
  induction s as [|c s IH]; simpl; trivial.
  rewrite IH, is_space_lower_char.
  destruct (PyStr.rstrip s); simpl; trivial.
  destruct (PyStr.is_space c); trivial.
Qed.

Lemma strip_lower (s : string) :
  PyStr.strip (PyStr.lower s) = PyStr.lower (PyStr.strip s).
Proof. unfold PyStr.strip. now rewrite lstrip_lower, rstrip_lower. Qed.

Lemma users_normal_snoc (l : list User) (u : User) :
  users_normal l ->
  PyStr.strip (username u) = username u ->
  PyStr.lower (PyStr.strip (email u)) = email u ->
  users_normal (l ++ [u]).
Proof.
  intros Hl Hn He v Hv. apply in_app_or in Hv.
  destruct Hv as [Hv|[<-|[]]]; [now apply Hl | tauto].
Qed.

Section Normalised.

Context {W : Werkzeug}.

Lemma register_users_normal m u e p d salt c :
  users_normal (users (db c)) ->
  users_normal (users (db (snd (register m u e p d salt c)))).
Proof.
  intros Hc. unfold register. handler_cases; trivial.
  all: apply users_normal_snoc; trivial; simpl;
    [ apply strip_idem | now rewrite strip_lower, strip_idem, lower_idem ].
Qed.

Lemma new_project_users m t d b f now c :
  users (db (snd (new_project m t d b f now c))) = users (db c).
Proof. unfold new_project. handler_cases; reflexivity. Qed.

Lemma place_bid_users pid p msg c :
  users (db (snd (place_bid pid p msg c))) = users (db c).
Proof. unfold place_bid. handler_cases; reflexivity. Qed.

Lemma accept_bid_users pid bid c :
  users (db (snd (accept_bid pid bid c))) = users (db c).
Proof. unfold accept_bid. handler_cases; reflexivity. Qed.

Lemma handle_users_normal (r : Request) (c : Ctx) :
  users_normal (users (db c)) -> users_normal (users (db (snd (handle r c)))).
Proof.
  intros Hc. destruct r; simpl.
  - now apply register_users_normal.
  - now rewrite login_db.
  - now rewrite logout_db.
  - now rewrite new_project_users.
  - now rewrite place_bid_users.
  - now rewrite accept_bid_users.
Qed.

Lemma reachable_users_normal (w : World) :
  reachable w -> users_normal (users (w_db w)).
Proof.
  induction 1 as [|w client r Hw IH].
  - intros u [].
  - rewrite step_db. now apply (handle_users_normal r (mkCtx _ _ _)).
Qed.

(** In a reachable state a registration whose user-name field, or e-mail
    field, is literally the stored user name, or e-mail address, of some
    account, collides: stripping and lower-casing do not change a stored
    value. *)
Lemma reachable_collision_is_literal (w : World) (u : User)
    (username_field email_field : string) :
  reachable w -> In u (users (w_db w)) ->
  username u = username_field \/ email u = email_field ->
  username u = PyStr.strip username_field
  \/ email u = PyStr.lower (PyStr.strip email_field).
Proof.
  intros Hw Hin Hu. destruct (reachable_users_normal w Hw u Hin) as [Hn He].
  destruct Hu as [<-|<-]; [left | right]; congruence.
Qed.

End Normalised.

(** * The handlers case by case *)

Lemma current_user_in (c : Ctx) (me : User) :
  current_user c = Some me ->
  In me (users (db c)) /\ session c = Some (user_id me).
Proof.
  unfold current_user, get_user. destruct (session c) as [uid|]; [|discriminate].
  intros H. apply find_some in H. destruct H as [Hin Heq].
  apply Z.eqb_eq in Heq. subst. tauto.
Qed.

Lemma get_project_none (d : DB) (pid : Z) :
  get_project d pid = None <->
  (forall p, In p (projects d) -> project_id p <> pid).
Proof.
  unfold get_project. split.
  - intros H p Hin Hp. apply (find_none _ _ H) in Hin.
    apply Z.eqb_neq in Hin. contradiction.
  - intros H. destruct (find _ _) as [p|] eqn:Hf; trivial.
    apply find_some in Hf. destruct Hf as [Hin Heq]. apply Z.eqb_eq in Heq.
    now elim (H p Hin).
Qed.

Lemma find_snoc_fresh {A} (f : A -> bool) (l : list A) (x : A) :
  (forall y, In y l -> f y = false) -> f x = true -> find f (l ++ [x]) = Some x.
Proof.
  intros Hl Hx. induction l as [|y l IH]; simpl.
  - now rewrite Hx.
  - rewrite (Hl y (or_introl eq_refl)). apply IH.
    intros z Hz. apply Hl. now right.
Qed.

Section Cases.

Context {W : Werkzeug}.

Lemma register_cases m uf ef p d salt c :
  (snd (register m uf ef p d salt c) = c
   /\ is_success (fst (register m uf ef p d salt c)) = false)
  \/ (is_authenticated c = false /\ m = POST
      /\ PyStr.strip uf <> "" /\ PyStr.lower (PyStr.strip ef) <> "" /\ p <> ""
      /\ (forall v, In v (users (db c)) ->
                    username v <> PyStr.strip uf
                    /\ email v <> PyStr.lower (PyStr.strip ef))
      /\ register m uf ef p d salt c
         = (Redirect EpIndex (Some MsgWelcome),
            set_session (Some (user_id (new_user c uf ef p d salt)))
              (set_db (add_user (new_user c uf ef p d salt) (db c)) c))).
Proof.
  unfold register.
  destruct (is_authenticated c) eqn:Ha; [now left|].
  destruct m; [now left|].
  destruct (PyStr.truthy (PyStr.strip uf)) eqn:Hu; [|now left].
  destruct (PyStr.truthy (PyStr.lower (PyStr.strip ef))) eqn:He; [|now left].
  destruct (PyStr.truthy p) eqn:Hp; [|now left]. simpl.
  destruct (first_user_matching _ _ _) eqn:Hf; [now left|].
  right. apply truthy_true in Hu, He, Hp.
  pose proof (proj1 (first_user_matching_none _ _ _) Hf) as Hnone.
  repeat split; trivial; now apply Hnone.
Qed.

Lemma login_cases m uf p c :
  (snd (login m uf p c) = c /\ is_success (fst (login m uf p c)) = false)
  \/ exists u,
      In u (users (db c)) /\ is_authenticated c = false /\ m = POST
      /\ first_user_matching (db c) (PyStr.strip uf) (PyStr.strip uf) = Some u
      /\ check_password_hash (password_hash u) p = true
      /\ login m uf p c
         = (Redirect EpDashboard (Some MsgLoginOk),
            set_session (Some (user_id u)) c).
Proof.
  unfold login.
  destruct (is_authenticated c) eqn:Ha; [now left|].
  destruct m; [now left|].
  destruct (first_user_matching _ _ _) as [u|] eqn:Hf; [|now left].
  destruct (check_password_hash _ _) eqn:Hc; [|now left].
  right. exists u. repeat split; trivial.
  now apply first_user_matching_in in Hf.
Qed.

Lemma logout_cases c :
  (logout c = (Unauthorized, c) /\ current_user c = None)
  \/ exists me,
      current_user c = Some me
      /\ logout c = (Redirect EpIndex (Some MsgLoggedOut), set_session None c).
Proof.
  unfold logout. destruct (current_user c) as [me|]; [right|left]; eauto.
Qed.

Lemma new_project_cases m t d b f now c :
  (snd (new_project m t d b f now c) = c
   /\ is_success (fst (new_project m t d b f now c)) = false)
  \/ exists me img ups,
      current_user c = Some me /\ m = POST
      /\ PyStr.strip t <> "" /\ PyStr.strip d <> ""
      /\ ((img = None /\ ups = uploads c)
          \/ exists g, f = Some g /\ allowed_file (filename g) = true
               /\ img = Some (secure_filename
                                (PyStr.str_of_int now ++ "_" ++ filename g))
               /\ ups = (secure_filename
                           (PyStr.str_of_int now ++ "_" ++ filename g),
                         content g)
                        :: remove_file
                             (secure_filename
                                (PyStr.str_of_int now ++ "_" ++ filename g))
                             (uploads c))
      /\ new_project m t d b f now c
         = (Redirect (EpProjectDetail (next_id (map project_id (projects (db c)))))
                     (Some MsgProjectCreated),
            mkCtx (add_project (new_project_row c me t d b img) (db c))
                  ups (session c)).
Proof.
  unfold new_project.
  destruct (current_user c) as [me|] eqn:Hme; [|now left].
  destruct m; [now left|].
  destruct (PyStr.truthy (PyStr.strip t)) eqn:Ht; [|now left].
  destruct (PyStr.truthy (PyStr.strip d)) eqn:Hd; [|now left]. simpl.
  apply truthy_true in Ht, Hd. right.
  destruct f as [g|].
  - destruct (PyStr.truthy (filename g) && allowed_file (filename g)) eqn:Hg.
    + apply andb_true_iff in Hg. destruct Hg as [_ Hg].
      eexists me, _, _. repeat split; trivial.
      right. exists g. repeat split; trivial.
    + exists me, None, (uploads c). repeat split; trivial. now left.
  - exists me, None, (uploads c). repeat split; trivial. now left.
Qed.

Lemma missing_key_fails (k : Z) : is_success (missing_key k) = false.
Proof. unfold missing_key. destruct (key_ok k); reflexivity. Qed.

Lemma place_bid_cases pid pf mf c :
  (snd (place_bid pid pf mf c) = c
   /\ is_success (fst (place_bid pid pf mf c)) = false)
  \/ exists me project,
      current_user c = Some me /\ get_project (db c) pid = Some project
      /\ PyStr.strip pf <> ""
      /\ place_bid pid pf mf c
         = (Redirect (EpProjectDetail pid) (Some MsgBidSent),
            set_db (add_bid (new_bid c me pid pf mf) (db c)) c).
Proof.
  unfold place_bid.
  destruct (current_user c) as [me|] eqn:Hme; [|now left].
  destruct (get_project (db c) pid) as [project|] eqn:Hp;
    [|left; split; [reflexivity | apply missing_key_fails]].
  destruct (PyStr.truthy (PyStr.strip pf)) eqn:Hpf; [|now left]. simpl.
  right. exists me, project. apply truthy_true in Hpf.
  destruct (get_project_id _ _ _ Hp) as [-> _]. repeat split; trivial.
Qed.

Lemma accept_bid_cases pid bid c :
  (snd (accept_bid pid bid c) = c
   /\ is_success (fst (accept_bid pid bid c)) = false)
  \/ exists me project b,
      current_user c = Some me /\ get_project (db c) pid = Some project
      /\ owner_id project = user_id me
      /\ In b (bids (db c)) /\ bid_id b = bid /\ bid_project_id b = pid
      /\ accept_bid pid bid c
         = (Redirect (EpProjectDetail pid) (Some MsgBidAccepted),
            set_db (set_bids (map (accept_row pid bid) (bids (db c))) (db c)) c).
Proof.
  unfold accept_bid.
  destruct (current_user c) as [me|] eqn:Hme; [|now left].
  destruct (get_project (db c) pid) as [project|] eqn:Hp;
    [|left; split; [reflexivity | apply missing_key_fails]].
  destruct (get_project_id _ _ _ Hp) as [Hpid _].
  destruct (owner_id project =? user_id me) eqn:Ho; [|now left]. simpl.
  destruct (first_bid (db c) bid (project_id project)) as [b|] eqn:Hb;
    [|left; split; [reflexivity | apply missing_key_fails]].
  apply first_bid_some in Hb. destruct Hb as (Hin & Hid & Hbp).
  right. exists me, project, b. apply Z.eqb_eq in Ho.
  rewrite accept_rows_map, Hid, Hpid. subst. repeat split; trivial.
Qed.

End Cases.

(** * Invariants of the tables *)

Lemma accept_row_bidder (pid k : Z) (b : Bid) :
  bidder_id (accept_row pid k b) = bidder_id b.
Proof.
  unfold accept_row.
  destruct (bid_project_id b =? pid); simpl; destruct (bid_id b =? k); reflexivity.
Qed.

Lemma accept_row_price (pid k : Z) (b : Bid) :
  price (accept_row pid k b) = price b.
Proof.
  unfold accept_row.
  destruct (bid_project_id b =? pid); simpl; destruct (bid_id b =? k); reflexivity.
Qed.

Lemma not_in_map {A B} (f : A -> B) (l : list A) (y : B) :
  (forall x, In x l -> f x <> y) -> ~ In y (map f l).
Proof.
  intros H Hin. apply in_map_iff in Hin. destruct Hin as (x & Hx & Hin).
  now apply (H x Hin).
Qed.

Lemma db_inv_empty : db_inv empty_db.
Proof.
  unfold db_inv, identities_unique, references_resolve, required_filled.
  simpl. repeat split; try apply NoDup_nil; try contradiction; intros ? [].
Qed.

Lemma users_grow_owner (l l' : list User) (uid : Z) :
  (exists u, In u l /\ user_id u = uid) ->
  exists u, In u (l ++ l') /\ user_id u = uid.
Proof.
  intros (u & Hu & Hid). exists u. split; trivial. apply in_or_app. now left.
Qed.

Lemma db_inv_add_user (d : DB) (u : User) :
  db_inv d ->
  user_id u = next_id (map user_id (users d)) ->
  username u <> "" -> email u <> "" ->
  (forall v, In v (users d) -> username v <> username u /\ email v <> email u) ->
  db_inv (add_user u d).
Proof.
  intros (Hid & Hpid & [Hn He] & [Hrp Hrb] & (Hfu & Hfp & Hfb)) Hu Hne Hee Hfresh.
  unfold db_inv, identities_unique, references_resolve, required_filled.
  simpl. rewrite !map_app. simpl.
  split.
  { apply NoDup_snoc; trivial. rewrite Hu. apply next_id_fresh. }
  split; [exact Hpid|].
  split.
  { split; (apply NoDup_snoc; trivial; apply not_in_map;
            intros v Hv; now apply Hfresh). }
  split.
  { split.
    - intros p Hp. now apply users_grow_owner, Hrp.
    - intros b Hb. destruct (Hrb b Hb) as [H1 H2]. split; trivial.
      now apply users_grow_owner. }
  split; [|split; trivial].
  intros v Hv. apply in_app_or in Hv. destruct Hv as [Hv|[<-|[]]].
  - now apply Hfu.
  - now split.
Qed.

Lemma db_inv_add_project (d : DB) (p : Project) (me : User) :
  db_inv d ->
  In me (users d) -> owner_id p = user_id me ->
  project_id p = next_id (map project_id (projects d)) ->
  title p <> "" -> description p <> "" ->
  db_inv (add_project p d).
Proof.
  intros (Hid & Hpid & Hident & [Hrp Hrb] & (Hfu & Hfp & Hfb)) Hme Ho Hp Ht Hd.
  unfold db_inv, references_resolve, required_filled.
  simpl. rewrite !map_app. simpl.
  split; [exact Hid|].
  split.
  { apply NoDup_snoc; trivial. rewrite Hp. apply next_id_fresh. }
  split; [exact Hident|].
  split.
  { split.
    - intros q Hq. apply in_app_or in Hq. destruct Hq as [Hq|[<-|[]]].
      + now apply Hrp.
      + exists me. now split.
    - intros b Hb. destruct (Hrb b Hb) as [(q & Hq & Hqb) H2]. split; trivial.
      exists q. split; trivial. apply in_or_app. now left. }
  split; [exact Hfu|]. split; [|exact Hfb].
  intros q Hq. apply in_app_or in Hq. destruct Hq as [Hq|[<-|[]]].
  - now apply Hfp.
  - now split.
Qed.

Lemma db_inv_add_bid (d : DB) (b : Bid) (me : User) (project : Project) :
  db_inv d ->
  In me (users d) -> bidder_id b = user_id me ->
  In project (projects d) -> project_id project = bid_project_id b ->
  price b <> "" ->
  db_inv (add_bid b d).
Proof.
  intros (Hid & Hpid & Hident & [Hrp Hrb] & (Hfu & Hfp & Hfb)) Hme Hb Hproj Hp Hpr.
  unfold db_inv, references_resolve, required_filled. simpl.
  split; [exact Hid|]. split; [exact Hpid|]. split; [exact Hident|].
  split.
  { split; [exact Hrp|].
    intros x Hx. apply in_app_or in Hx. destruct Hx as [Hx|[<-|[]]].
    - now apply Hrb.
    - split; [exists project | exists me]; now split. }
  split; [exact Hfu|]. split; [exact Hfp|].
  intros x Hx. apply in_app_or in Hx. destruct Hx as [Hx|[<-|[]]]; trivial.
  now apply Hfb.
Qed.

Lemma db_inv_accept (d : DB) (pid k : Z) :
  db_inv d -> db_inv (set_bids (map (accept_row pid k) (bids d)) d).
Proof.
  intros (Hid & Hpid & Hident & [Hrp Hrb] & (Hfu & Hfp & Hfb)).
  unfold db_inv, references_resolve, required_filled. simpl.
  split; [exact Hid|]. split; [exact Hpid|]. split; [exact Hident|].
  split.
  { split; [exact Hrp|].
    intros x Hx. apply in_map_iff in Hx. destruct Hx as (y & <- & Hy).
    rewrite accept_row_project, accept_row_bidder. now apply Hrb. }
  split; [exact Hfu|]. split; [exact Hfp|].
  intros x Hx. apply in_map_iff in Hx. destruct Hx as (y & <- & Hy).
  rewrite accept_row_price. now apply Hfb.
Qed.

Section TableInvariants.

Context {W : Werkzeug}.

Lemma handle_db_inv (r : Request) (c : Ctx) :
  db_inv (db c) -> db_inv (db (snd (handle r c))).
Proof.
  intros Hinv. destruct r; simpl.
  - destruct (register_cases m username_field email_field password
                display_name_field salt c)
      as [[-> _]|(_ & _ & Hu & He & _ & Hfresh & ->)]; trivial.
    simpl. now apply db_inv_add_user.
  - now rewrite login_db.
  - now rewrite logout_db.
  - destruct (new_project_cases m title_field description_field budget_field
                file now c)
      as [[-> _]|(me & img & ups & Hme & _ & Ht & Hd & _ & ->)]; trivial.
    simpl. apply current_user_in in Hme.
    now apply (db_inv_add_project _ _ me).
  - destruct (place_bid_cases pid price_field message_field c)
      as [[-> _]|(me & project & Hme & Hp & Hpr & ->)]; trivial.
    simpl. apply current_user_in in Hme. apply get_project_id in Hp.
    now apply (db_inv_add_bid _ _ me project).
  - destruct (accept_bid_cases pid bid c)
      as [[-> _]|(me & project & b & _ & _ & _ & _ & _ & _ & ->)]; trivial.
    simpl. now apply db_inv_accept.
Qed.

Lemma reachable_db_inv (w : World) : reachable w -> db_inv (w_db w).
Proof.
  induction 1 as [|w client r Hw IH].
  - apply db_inv_empty.
  - rewrite step_db. now apply (handle_db_inv r (mkCtx _ _ _)).
Qed.

End TableInvariants.

Section Sessions.

Context {W : Werkzeug}.

Lemma handle_users_incl (r : Request) (c : Ctx) (u : User) :
  In u (users (db c)) -> In u (users (db (snd (handle r c)))).
Proof.
  intros Hu. destruct r; simpl.
  - destruct (register_cases m username_field email_field password
                display_name_field salt c)
      as [[-> _]|(_ & _ & _ & _ & _ & _ & ->)]; trivial.
    simpl. apply in_or_app. now left.
  - now rewrite login_db.
  - now rewrite logout_db.
  - now rewrite new_project_users.
  - now rewrite place_bid_users.
  - now rewrite accept_bid_users.
Qed.

Lemma handle_session_resolves (r : Request) (c : Ctx) :
  (forall uid, session c = Some uid ->
     exists u, In u (users (db c)) /\ user_id u = uid) ->
  forall uid, session (snd (handle r c)) = Some uid ->
    exists u, In u (users (db (snd (handle r c)))) /\ user_id u = uid.
Proof.
  intros Hc uid. destruct r; simpl.
  - destruct (register_cases m username_field email_field password
                display_name_field salt c)
      as [[-> _]|(_ & _ & _ & _ & _ & _ & ->)]; [apply Hc|].
    simpl. intros H. injection H as <-.
    eexists. split; [apply in_or_app; right; left; reflexivity | reflexivity].
  - destruct (login_cases m username_field password c)
      as [[-> _]|(u & Hu & _ & _ & _ & _ & ->)]; [apply Hc|].
    simpl. intros H. injection H as <-. now exists u.
  - destruct (logout_cases c) as [[-> _]|(me & _ & ->)]; [apply Hc|].
    simpl. discriminate.
  - destruct (new_project_cases m title_field description_field budget_field
                file now c)
      as [[-> _]|(me & img & ups & _ & _ & _ & _ & _ & ->)]; apply Hc.
  - destruct (place_bid_cases pid price_field message_field c)
      as [[-> _]|(me & project & _ & _ & _ & ->)]; apply Hc.
  - destruct (accept_bid_cases pid bid c)
      as [[-> _]|(me & project & b & _ & _ & _ & _ & _ & _ & ->)]; apply Hc.
Qed.

Lemma step_sessions (client : nat) (r : Request) (w : World) (k : nat) :
  w_sessions (snd (step client r w)) k
  = if Nat.eqb k client
    then session (snd (handle r (mkCtx (w_db w) (w_uploads w) (w_sessions w client))))
    else w_sessions w k.
Proof.
  unfold step. destruct (handle r _) as [resp c]. reflexivity.
Qed.

End Sessions.

(** * Further properties of the application *)

(** ** What holds in every reachable state *)

(** X1.  In every reachable state no two User rows share a user name and
    no two share an e-mail address: the duplicate query of [register]
    keeps the two unique constraints of the model. *)
Theorem reachable_identities_unique {W : Werkzeug} (w : World) :
  reachable w ->
  NoDup (map username (users (w_db w))) /\ NoDup (map email (users (w_db w))).
Proof.
  intros Hw. apply (reachable_db_inv w Hw).
Qed.

Lemma reachable_identities_unique_witness :
  reachable (run cross_trace init_world)
  /\ NoDup (map username (users (w_db (run cross_trace init_world))))
  /\ NoDup (map email (users (w_db (run cross_trace init_world)))).
Proof.
  assert (H : reachable (run cross_trace init_world))
    by (apply reachable_run; constructor).
  split; [exact H | exact (reachable_identities_unique _ H)].
Defined.

(** X2.  In every reachable state every foreign key names a row: the owner
    of each Project and the bidder of each Bid are User rows, and the
    project of each Bid is a Project row. *)
Theorem reachable_references_resolve {W : Werkzeug} (w : World) :
  reachable w ->
  (forall p, In p (projects (w_db w)) ->
     exists u, In u (users (w_db w)) /\ user_id u = owner_id p)
  /\ (forall b, In b (bids (w_db w)) ->
       (exists p, In p (projects (w_db w)) /\ project_id p = bid_project_id b)
       /\ (exists u, In u (users (w_db w)) /\ user_id u = bidder_id b)).
Proof.
  intros Hw. apply (reachable_db_inv w Hw).
Qed.

Lemma reachable_references_resolve_witness :
  reachable (run scenario init_world)
  /\ forall b, In b (bids (w_db (run scenario init_world))) ->
       (exists p, In p (projects (w_db (run scenario init_world)))
                  /\ project_id p = bid_project_id b)
       /\ (exists u, In u (users (w_db (run scenario init_world)))
                     /\ user_id u = bidder_id b).
Proof.
  assert (H : reachable (run scenario init_world))
    by (apply reachable_run; constructor).
  split; [exact H | exact (proj2 (reachable_references_resolve _ H))].
Defined.

(** X3.  In every reachable state the stored rows passed the checks of the
    handlers: user names and e-mail addresses are not empty, user names
    are stripped, e-mail addresses are stripped and in lower case, project
    titles and descriptions are not empty, bid prices are not empty. *)
Theorem reachable_required_fields {W : Werkzeug} (w : World) :
  reachable w ->
  (forall u, In u (users (w_db w)) ->
     username u <> "" /\ email u <> ""
     /\ PyStr.strip (username u) = username u
     /\ PyStr.lower (PyStr.strip (email u)) = email u)
  /\ (forall p, In p (projects (w_db w)) -> title p <> "" /\ description p <> "")
  /\ (forall b, In b (bids (w_db w)) -> price b <> "").
Proof.
  intros Hw.
  destruct (reachable_db_inv w Hw) as (_ & _ & _ & _ & (Hfu & Hfp & Hfb)).
  split; [|split; trivial].
  intros u Hu. destruct (Hfu u Hu) as [H1 H2].
  destruct (reachable_users_normal w Hw u Hu) as [H3 H4]. tauto.
Qed.

Lemma reachable_required_fields_witness :
  reachable (run scenario init_world)
  /\ forall b, In b (bids (w_db (run scenario init_world))) -> price b <> "".
Proof.
  assert (H : reachable (run scenario init_world))
    by (apply reachable_run; constructor).
  split; [exact H | exact (proj2 (proj2 (reachable_required_fields _ H)))].
Defined.

(** X4.  In every reachable state the session of every browser, when it
    holds a user id, holds the id of a User row: [load_user] never comes
    back empty for a session the application issued. *)
Theorem reachable_sessions_resolve {W : Werkzeug} (w : World) :
  reachable w ->
  forall k uid, w_sessions w k = Some uid ->
    exists u, In u (users (w_db w)) /\ user_id u = uid.
Proof.
  induction 1 as [|w client r Hw IH]; intros k uid.
  - discriminate.
  - rewrite step_sessions, step_db.
    destruct (Nat.eqb k client).
    + apply (handle_session_resolves r (mkCtx _ _ _)). apply IH.
    + intros Hk. destruct (IH k uid Hk) as (u & Hu & Hid).
      exists u. split; trivial. now apply (handle_users_incl r (mkCtx _ _ _)).
Qed.

Lemma reachable_sessions_resolve_witness :
  reachable (run scenario init_world)
  /\ w_sessions (run scenario init_world) 2%nat = Some 3
  /\ exists u, In u (users (w_db (run scenario init_world))) /\ user_id u = 3.
Proof.
  assert (H : reachable (run scenario init_world))
    by (apply reachable_run; constructor).
  split; [exact H|]. split; [reflexivity|].
  exact (reachable_sessions_resolve _ H 2%nat 3 eq_refl).
Defined.

(** ** Register, login, logout *)

Lemma get_user_snoc_fresh (l : list User) (u : User) :
  user_id u = next_id (map user_id l) ->
  find (fun v => user_id v =? user_id u) (l ++ [u]) = Some u.
Proof.
  intros Hu. apply find_snoc_fresh; [|apply Z.eqb_refl].
  intros v Hv. apply Z.eqb_neq. intros Heq.
  apply (next_id_fresh (map user_id l)). rewrite <- Hu, <- Heq. now apply in_map.
Qed.

Lemma get_user_of_row (d : DB) (u : User) :
  In u (users d) -> exists v, get_user d (user_id u) = Some v.
Proof.
  intros Hu. unfold get_user.
  destruct (find _ _) as [v|] eqn:Hf; [now exists v|].
  apply (find_none _ _ Hf) in Hu. now rewrite Z.eqb_refl in Hu.
Qed.

(** X5.  A register POST from a browser that is not signed in, with user
    name, e-mail address and password filled in and no existing row with
    that (stripped) user name or that (stripped, lower-cased) e-mail
    address, appends one User row and nothing else: the row carries the
    normalised user name and address, the display name defaults to the
    user name, the stored hash verifies the password, and the session of
    the browser is bound to the new row. *)
Theorem register_creates_account {W : Werkzeug}
    (c : Ctx) (username_field email_field password : string)
    (display_name_field : option string) (salt : string) :
  is_authenticated c = false ->
  PyStr.strip username_field <> "" ->
  PyStr.lower (PyStr.strip email_field) <> "" ->
  password <> "" ->
  (forall v, In v (users (db c)) ->
             username v <> PyStr.strip username_field
             /\ email v <> PyStr.lower (PyStr.strip email_field)) ->
  exists u c',
    register POST username_field email_field password display_name_field salt c
    = (Redirect EpIndex (Some MsgWelcome), c')
    /\ c' = mkCtx (mkDB (users (db c) ++ [u]) (projects (db c)) (bids (db c)))
                  (uploads c) (Some (user_id u))
    /\ username u = PyStr.strip username_field
    /\ email u = PyStr.lower (PyStr.strip email_field)
    /\ display_name u = match display_name_field with
                        | Some n => n
                        | None => PyStr.strip username_field
                        end
    /\ ~ In (user_id u) (map user_id (users (db c)))
    /\ check_password_hash (password_hash u) password = true
    /\ current_user c' = Some u.
Proof.
  intros Ha Hu He Hp Hfresh.
  exists (new_user c username_field email_field password display_name_field salt).
  eexists. split.
  - unfold register. rewrite Ha.
    apply truthy_true in Hu, He, Hp. rewrite Hu, He, Hp. simpl.
    pose proof (proj2 (first_user_matching_none (db c) _ _) Hfresh) as Hnone.
    rewrite Hnone. reflexivity.
  - split; [reflexivity|]. repeat split.
    + apply next_id_fresh.
    + apply check_generate.
    + unfold current_user, get_user. simpl.
      exact (get_user_snoc_fresh (users (db c))
               (new_user c username_field email_field password
                  display_name_field salt) eq_refl).
Qed.

Lemma register_creates_account_witness :
  exists u c',
    register POST " bob " "Bob@X.com" "pw2" None "s" ctx_alice_only
    = (Redirect EpIndex (Some MsgWelcome), c')
    /\ users (db c') = (users (db ctx_alice_only) ++ [u])%list
    /\ username u = "bob" /\ email u = "bob@x.com" /\ display_name u = "bob"
    /\ session c' = Some 2.
Proof.
  destruct (register_creates_account ctx_alice_only " bob " "Bob@X.com" "pw2"
              None "s")
    as (u & c' & Hcall & -> & Hn & He & Hd & _ & _ & Hcur).
  - reflexivity.
  - vm_compute. discriminate.
  - vm_compute. discriminate.
  - discriminate.
  - simpl. intros v [<-|[]]. vm_compute. split; discriminate.
  - exists u. eexists. split; [exact Hcall|]. simpl.
    vm_compute in Hcall. injection Hcall as <-. repeat split.
Defined.

(** X6.  A register POST from a browser that is not signed in, in which
    the user name or the e-mail address is blank or the password is empty,
    is answered with the missing-field message, whatever the tables hold,
    and changes nothing. *)
Theorem register_missing_field_rejected {W : Werkzeug}
    (c : Ctx) (username_field email_field password : string)
    (display_name_field : option string) (salt : string) :
  is_authenticated c = false ->
  PyStr.strip username_field = ""
  \/ PyStr.strip email_field = "" \/ password = "" ->
  register POST username_field email_field password display_name_field salt c
  = (InvalidInput_register, c).
Proof.
  intros Ha H. unfold register. rewrite Ha.
  destruct H as [H|[H|H]]; rewrite H; simpl;
    rewrite ?orb_true_r; reflexivity.
Qed.

Lemma register_missing_field_rejected_witness :
  register POST "   " "new@x.com" "pw" None "s" ctx_alice_only
  = (InvalidInput_register, ctx_alice_only).
Proof.
  apply (register_missing_field_rejected ctx_alice_only "   " "new@x.com" "pw"
           None "s").
  - reflexivity.
  - left. reflexivity.
Defined.

(** X7.  The four routes behind [@login_required] (logout, create-project,
    place-bid, accept-bid) answer a browser without a resolvable session
    with the redirect to the login page and change nothing, whatever the
    arguments. *)
Theorem login_required_guards {W : Werkzeug} (c : Ctx) :
  current_user c = None ->
  logout c = (Unauthorized, c)
  /\ (forall m t d b f now, new_project m t d b f now c = (Unauthorized, c))
  /\ (forall pid p msg, place_bid pid p msg c = (Unauthorized, c))
  /\ (forall pid bid, accept_bid pid bid c = (Unauthorized, c)).
Proof.
  intros H. unfold logout, new_project, place_bid, accept_bid.
  rewrite H. repeat split.
Qed.

Lemma login_required_guards_witness :
  place_bid 1 "$10" "" (set_session None ctx_two_bids)
  = (Unauthorized, set_session None ctx_two_bids)
  /\ accept_bid 1 2 (set_session (Some 9) ctx_two_bids)
     = (Unauthorized, set_session (Some 9) ctx_two_bids).
Proof.
  split.
  - apply (login_required_guards (set_session None ctx_two_bids)). reflexivity.
  - apply (login_required_guards (set_session (Some 9) ctx_two_bids)). reflexivity.
Defined.

(** X8.  Login followed by logout is a round trip: when a browser with an
    empty session logs in successfully, logging out succeeds and gives
    back exactly the context before the login. *)
Theorem login_logout_round_trip {W : Werkzeug}
    (c c1 : Ctx) (m : Method) (username_field password : string) :
  session c = None ->
  login m username_field password c
  = (Redirect EpDashboard (Some MsgLoginOk), c1) ->
  logout c1 = (Redirect EpIndex (Some MsgLoggedOut), c).
Proof.
  intros Hs Hlogin.
  destruct (login_cases m username_field password c)
    as [[_ Hfail]|(u & Hu & _ & _ & _ & _ & Heq)].
  - rewrite Hlogin in Hfail. discriminate.
  - rewrite Heq in Hlogin. injection Hlogin as <-.
    destruct (get_user_of_row (db c) u Hu) as [v Hv].
    unfold logout, current_user. simpl. rewrite Hv.
    destruct c as [d ups s]. simpl in Hs. subst s. reflexivity.
Qed.

Lemma login_logout_round_trip_witness :
  logout (set_session (Some 1) ctx_alice_only)
  = (Redirect EpIndex (Some MsgLoggedOut), ctx_alice_only).
Proof.
  apply (login_logout_round_trip ctx_alice_only
           (set_session (Some 1) ctx_alice_only) POST "alice" "pw1").
  - reflexivity.
  - reflexivity.
Defined.

(** ** Failing requests *)

(** X9.  A create-project POST by a signed-in user whose title or
    description is blank is answered with the message asking for both and
    changes nothing: no Project row, and no file written even when the
    attached file has an allowed extension. *)
Theorem new_project_missing_title_rejected {W : Werkzeug}
    (c : Ctx) (me : User) (title_field description_field budget_field : string)
    (file : option Upload) (now : Z) :
  current_user c = Some me ->
  PyStr.strip title_field = "" \/ PyStr.strip description_field = "" ->
  new_project POST title_field description_field budget_field file now c
  = (Redirect EpNewProject (Some MsgTitleDescRequired), c).
Proof.
  intros Hme H. unfold new_project. rewrite Hme.
  destruct H as [H|H]; rewrite H; simpl; rewrite ?orb_true_r; reflexivity.
Qed.

Lemma new_project_missing_title_rejected_witness :
  new_project POST "  " "A logo" "$100" (Some (mkUpload "photo.png" "bytes"))
    1700000000 ctx_alice_in
  = (Redirect EpNewProject (Some MsgTitleDescRequired), ctx_alice_in).
Proof.
  apply (new_project_missing_title_rejected ctx_alice_in
           (mkUser 1 "alice" "alice" "alice@x.com" "plain$pw1")).
  - reflexivity.
  - left. reflexivity.
Defined.

(** X10.  Place-bid and accept-bid by a signed-in user on a project id that
    no Project row carries change nothing and are refused before the
    price, the bid id or the owner is looked at: with 404 when the id is
    below 2^63, and with 500 when it is larger, since such an id cannot be
    bound to the query that fetches the project. *)
Theorem unknown_project_not_found {W : Werkzeug}
    (c : Ctx) (me : User) (pid : Z) :
  current_user c = Some me ->
  (forall p, In p (projects (db c)) -> project_id p <> pid) ->
  forall price_field message_field bid,
    (pid < 9223372036854775808 ->
     place_bid pid price_field message_field c = (NotFound, c)
     /\ accept_bid pid bid c = (NotFound, c))
    /\ (9223372036854775808 <= pid ->
        place_bid pid price_field message_field c = (ServerError, c)
        /\ accept_bid pid bid c = (ServerError, c)).
Proof.
  intros Hme Hnone price_field message_field bid.
  apply get_project_none in Hnone.
  unfold place_bid, accept_bid, missing_key, key_ok. rewrite Hme, Hnone.
  split; intros Hpid.
  - apply Z.ltb_lt in Hpid. rewrite Hpid. split; reflexivity.
  - apply Z.ltb_ge in Hpid. rewrite Hpid. split; reflexivity.
Qed.

Lemma unknown_project_not_found_witness :
  (place_bid 5 "$10" "" ctx_two_bids = (NotFound, ctx_two_bids)
   /\ accept_bid 5 1 ctx_two_bids = (NotFound, ctx_two_bids))
  /\ (place_bid 9223372036854775808 "$10" "" ctx_two_bids
      = (Abort 500, ctx_two_bids)
      /\ accept_bid 9223372036854775808 1 ctx_two_bids
         = (Abort 500, ctx_two_bids)).
Proof.
  split.
  - destruct (unknown_project_not_found ctx_two_bids
                (mkUser 1 "alice" "alice" "alice@x.com" "plain$pw1") 5)
      with (price_field := "$10") (message_field := "") (bid := 1)
      as [H _].
    + reflexivity.
    + simpl. intros p [<-|[]]. simpl. lia.
    + apply H. lia.
  - destruct (unknown_project_not_found ctx_two_bids
                (mkUser 1 "alice" "alice" "alice@x.com" "plain$pw1")
                9223372036854775808)
      with (price_field := "$10") (message_field := "") (bid := 1)
      as [_ H].
    + reflexivity.
    + simpl. intros p [<-|[]]. simpl. lia.
    + apply H. lia.
Defined.

(** X11.  A request that is not answered by one of the six success
    redirects leaves tables, upload directory and session exactly as they
    were: no handler writes before it fails. *)
Theorem errors_change_nothing {W : Werkzeug} (r : Request) (c : Ctx) :
  is_success (fst (handle r c)) = false -> snd (handle r c) = c.
Proof.
  destruct r; simpl.
  - destruct (register_cases m username_field email_field password
                display_name_field salt c)
      as [[H _]|(_ & _ & _ & _ & _ & _ & ->)]; [trivial | discriminate].
  - destruct (login_cases m username_field password c)
      as [[H _]|(u & _ & _ & _ & _ & _ & ->)]; [trivial | discriminate].
  - destruct (logout_cases c) as [[-> _]|(me & _ & ->)]; [trivial | discriminate].
  - destruct (new_project_cases m title_field description_field budget_field
                file now c)
      as [[H _]|(me & img & ups & _ & _ & _ & _ & _ & ->)];
      [trivial | discriminate].
  - destruct (place_bid_cases pid price_field message_field c)
      as [[H _]|(me & project & _ & _ & _ & ->)]; [trivial | discriminate].
  - destruct (accept_bid_cases pid bid c)
      as [[H _]|(me & project & b & _ & _ & _ & _ & _ & _ & ->)];
      [trivial | discriminate].
Qed.

Lemma errors_change_nothing_witness :
  snd (handle (ReqAcceptBid 1 2) (set_session (Some 2) ctx_two_bids))
  = set_session (Some 2) ctx_two_bids.
Proof.
  apply (errors_change_nothing (ReqAcceptBid 1 2)
           (set_session (Some 2) ctx_two_bids)).
  reflexivity.
Defined.

(** ** What a request can and cannot change *)

Lemma map_clear_flag_accept_row (pid k : Z) (l : list Bid) :
  map (set_accepted false) (map (accept_row pid k) l) = map (set_accepted false) l.
Proof.
  rewrite map_map. apply map_ext. intros b.
  symmetry. apply accept_row_same_but_flag.
Qed.

(** X12.  No request deletes or rewrites a row, apart from the accepted
    flag: after any request the User and Project tables are the old ones
    with rows appended, and the Bid table with flags blanked is the old one
    with flags blanked and rows appended.  No request removes a file from
    the upload directory either: a request writes at most one file name,
    which is served afterwards, and every other name is served exactly as
    before. *)
Theorem tables_only_grow {W : Werkzeug} (r : Request) (c : Ctx) :
  exists lu lp lb (written : option string),
    users (db (snd (handle r c))) = (users (db c) ++ lu)%list
    /\ projects (db (snd (handle r c))) = (projects (db c) ++ lp)%list
    /\ map (set_accepted false) (bids (db (snd (handle r c))))
       = (map (set_accepted false) (bids (db c)) ++ lb)%list
    /\ (forall name, written = Some name ->
          exists data, uploaded_file name (snd (handle r c)) = ViewFile data)
    /\ (forall other, written <> Some other ->
          uploaded_file other (snd (handle r c)) = uploaded_file other c).
Proof.
  assert (Hsame : forall c', uploads c' = uploads c ->
            (forall name, @None string = Some name ->
               exists data, uploaded_file name c' = ViewFile data)
            /\ (forall other, @None string <> Some other ->
                  uploaded_file other c' = uploaded_file other c)).
  { intros c' Hu. split; [discriminate|].
    intros other _. unfold uploaded_file. now rewrite Hu. }
  destruct r; simpl.
  - destruct (register_cases m username_field email_field password
                display_name_field salt c)
      as [[-> _]|(_ & _ & _ & _ & _ & _ & ->)].
    + exists [], [], [], None. rewrite !app_nil_r. repeat split; now apply Hsame.
    + simpl. eexists [_], [], [], None. rewrite !app_nil_r.
      repeat split; now apply Hsame.
  - destruct (login_cases m username_field password c)
      as [[-> _]|(u & _ & _ & _ & _ & _ & ->)];
      exists [], [], [], None; rewrite !app_nil_r; repeat split;
      now apply Hsame.
  - destruct (logout_cases c) as [[-> _]|(me & _ & ->)];
      exists [], [], [], None; rewrite !app_nil_r; repeat split;
      now apply Hsame.
  - destruct (new_project_cases m title_field description_field budget_field
                file now c)
      as [[-> _]|(me & img & ups & _ & _ & _ & _ & Hups & ->)].
    + exists [], [], [], None. rewrite !app_nil_r. repeat split; now apply Hsame.
    + simpl. destruct Hups as [[_ ->]|(g & _ & _ & _ & ->)].
      * eexists [], [_], [], None. rewrite !app_nil_r.
        repeat split; now apply Hsame.
      * eexists [], [_], [],
          (Some (secure_filename
                   (PyStr.str_of_int now ++ "_" ++ filename g))).
        rewrite !app_nil_r. split; [reflexivity|]. split; [reflexivity|].
        split; [reflexivity|]. split.
        -- intros name Hname. injection Hname as <-. exists (content g).
           unfold uploaded_file. simpl. now rewrite String.eqb_refl.
        -- intros other Hother.
           assert (Hne : other
                         <> secure_filename
                              (PyStr.str_of_int now ++ "_" ++ filename g))
             by congruence.
           apply (uploaded_file_other _ other (content g) c Hne).
  - destruct (place_bid_cases pid price_field message_field c)
      as [[-> _]|(me & project & _ & _ & _ & ->)].
    + exists [], [], [], None. rewrite !app_nil_r. repeat split; now apply Hsame.
    + simpl. eexists [], [], [_], None. rewrite !app_nil_r, map_app.
      repeat split; now apply Hsame.
  - destruct (accept_bid_cases pid bid c)
      as [[-> _]|(me & project & b & _ & _ & _ & _ & _ & _ & ->)].
    + exists [], [], [], None. rewrite !app_nil_r. repeat split; now apply Hsame.
    + simpl. exists [], [], [], None.
      rewrite !app_nil_r, map_clear_flag_accept_row.
      repeat split; now apply Hsame.
Qed.

(** X13.  Each route writes only what is its own: register leaves
    projects, bids and uploads alone; login and logout leave all tables
    and the uploads alone; create-project leaves users, bids and the
    session alone; place-bid and accept-bid leave users, projects, uploads
    and the session alone. *)
Theorem routes_write_their_own_tables {W : Werkzeug} (r : Request) (c : Ctx) :
  match r with
  | ReqRegister _ _ _ _ _ _ =>
      projects (db (snd (handle r c))) = projects (db c)
      /\ bids (db (snd (handle r c))) = bids (db c)
      /\ uploads (snd (handle r c)) = uploads c
  | ReqLogin _ _ _ | ReqLogout =>
      db (snd (handle r c)) = db c /\ uploads (snd (handle r c)) = uploads c
  | ReqNewProject _ _ _ _ _ _ =>
      users (db (snd (handle r c))) = users (db c)
      /\ bids (db (snd (handle r c))) = bids (db c)
      /\ session (snd (handle r c)) = session c
  | ReqPlaceBid _ _ _ | ReqAcceptBid _ _ =>
      users (db (snd (handle r c))) = users (db c)
      /\ projects (db (snd (handle r c))) = projects (db c)
      /\ uploads (snd (handle r c)) = uploads c
      /\ session (snd (handle r c)) = session c
  end.
Proof.
  destruct r; simpl.
  - destruct (register_cases m username_field email_field password
                display_name_field salt c)
      as [[-> _]|(_ & _ & _ & _ & _ & _ & ->)]; repeat split.
  - destruct (login_cases m username_field password c)
      as [[-> _]|(u & _ & _ & _ & _ & _ & ->)]; repeat split.
  - destruct (logout_cases c) as [[-> _]|(me & _ & ->)]; repeat split.
  - destruct (new_project_cases m title_field description_field budget_field
                file now c)
      as [[-> _]|(me & img & ups & _ & _ & _ & _ & _ & ->)]; repeat split.
  - destruct (place_bid_cases pid price_field message_field c)
      as [[-> _]|(me & project & _ & _ & _ & ->)]; repeat split.
  - destruct (accept_bid_cases pid bid c)
      as [[-> _]|(me & project & b & _ & _ & _ & _ & _ & _ & ->)]; repeat split.
Qed.

(** ** More on accept-bid *)

Lemma accept_row_idem (pid k : Z) (b : Bid) :
  accept_row pid k (accept_row pid k b) = accept_row pid k b.
Proof.
  unfold accept_row.
  destruct (bid_project_id b =? pid) eqn:Hp; simpl;
    destruct (bid_id b =? k) eqn:Hk; simpl; rewrite ?Hp, ?Hk; simpl;
    rewrite ?Hk; reflexivity.
Qed.

Lemma filter_map_comm {A B} (f : A -> B) (p : B -> bool) (l : list A) :
  filter p (map f l) = map f (filter (fun x => p (f x)) l).
Proof.
  induction l as [|a l IH]; simpl; trivial.
  destruct (p (f a)); simpl; now rewrite IH.
Qed.

Lemma filter_none {A} (p : A -> bool) (l : list A) :
  (forall x, In x l -> p x = false) -> filter p l = [].
Proof.
  induction l as [|a l IH]; simpl; intros H; trivial.
  rewrite (H a (or_introl eq_refl)). apply IH. intros x Hx. apply H. now right.
Qed.

Lemma filter_key_singleton (l : list Bid) (b : Bid) :
  NoDup (map bid_id l) -> In b l ->
  filter (fun x => bid_id x =? bid_id b) l = [b].
Proof.
  induction l as [|a l IH]; simpl; intros Hnd Hin; [contradiction|].
  inversion Hnd as [|? ? Ha Hl]; subst.
  destruct Hin as [->|Hin].
  - rewrite Z.eqb_refl. f_equal. apply filter_none.
    intros x Hx. apply Z.eqb_neq. intros Heq. apply Ha.
    rewrite <- Heq. now apply in_map.
  - destruct (bid_id a =? bid_id b) eqn:Hab; [|now apply IH].
    apply Z.eqb_eq in Hab. exfalso. apply Ha. rewrite Hab. now apply in_map.
Qed.

(** X14.  Accepting the same bid a second time succeeds again and changes
    nothing: the context after the second call is the context after the
    first. *)
Theorem accept_bid_idempotent {W : Werkzeug} (c c1 : Ctx) (pid bid : Z) :
  accept_bid pid bid c
  = (Redirect (EpProjectDetail pid) (Some MsgBidAccepted), c1) ->
  accept_bid pid bid c1
  = (Redirect (EpProjectDetail pid) (Some MsgBidAccepted), c1).
Proof.
  intros Hcall.
  destruct (accept_bid_cases pid bid c)
    as [[_ Hfail]|(me & project & b & Hme & Hp & Ho & Hin & Hid & Hbp & Heq)].
  - rewrite Hcall in Hfail. discriminate.
  - rewrite Heq in Hcall. injection Hcall as <-.
    destruct (get_project_id _ _ _ Hp) as [Hpid _].
    assert (Hfirst : exists b', first_bid
              (set_bids (map (accept_row pid bid) (bids (db c))) (db c))
              bid pid = Some b').
    { apply first_bid_exists. exists (accept_row pid bid b). simpl.
      rewrite accept_row_id, accept_row_project.
      split; [now apply in_map | tauto]. }
    destruct Hfirst as [b' Hb'].
    destruct (first_bid_some _ _ _ _ Hb') as (_ & Hid' & _).
    unfold accept_bid.
    change (current_user (set_db _ c)) with (current_user c).
    change (get_project (db (set_db ?d c)) pid) with (get_project (db c) pid).
    rewrite Hme, Hp, Ho, Z.eqb_refl, Hpid. simpl.
    rewrite Hb', accept_rows_map, Hid'. simpl.
    rewrite map_map, (map_ext _ _ (accept_row_idem pid bid)). reflexivity.
Qed.

Lemma accept_bid_idempotent_witness :
  accept_bid 1 2 (snd (accept_bid 1 2 ctx_two_bids))
  = (Redirect (EpProjectDetail 1) (Some MsgBidAccepted),
     snd (accept_bid 1 2 ctx_two_bids)).
Proof.
  apply (accept_bid_idempotent ctx_two_bids). reflexivity.
Defined.

(** X15.  With unique Bid keys, a successful accept-bid leaves the bids of
    every other project exactly as they were, flags included. *)
Theorem accept_bid_other_projects_untouched {W : Werkzeug}
    (c c1 : Ctx) (pid bid : Z) :
  NoDup (map bid_id (bids (db c))) ->
  accept_bid pid bid c
  = (Redirect (EpProjectDetail pid) (Some MsgBidAccepted), c1) ->
  filter (fun x => negb (bid_project_id x =? pid)) (bids (db c1))
  = filter (fun x => negb (bid_project_id x =? pid)) (bids (db c)).
Proof.
  intros Hnd Hcall.
  destruct (accept_bid_cases pid bid c)
    as [[_ Hfail]|(me & project & b & _ & _ & _ & Hin & Hid & Hbp & Heq)].
  - rewrite Hcall in Hfail. discriminate.
  - rewrite Heq in Hcall. injection Hcall as <-. simpl.
    rewrite filter_map_comm.
    rewrite (filter_ext _ (fun x => negb (bid_project_id x =? pid)))
      by (intros x; now rewrite accept_row_project).
    rewrite <- (map_id (filter _ (bids (db c)))) at 2.
    apply map_ext_in. intros x Hx. apply filter_In in Hx.
    destruct Hx as [Hx Hxp]. apply negb_true_iff, Z.eqb_neq in Hxp.
    apply accept_row_other; trivial. intros Hxk.
    assert (x = b) by (apply (NoDup_map_inj bid_id (bids (db c))); congruence).
    congruence.
Qed.

Lemma accept_bid_other_projects_untouched_witness :
  filter (fun x => negb (bid_project_id x =? 1))
         (bids (db (snd (accept_bid 1 3 ctx_two_flagged))))
  = [ mkBid 2 "$30" "" 2 2 true ].
Proof.
  apply (accept_bid_other_projects_untouched ctx_two_flagged
           (snd (accept_bid 1 3 ctx_two_flagged)) 1 3).
  - simpl. repeat constructor; simpl; intuition lia.
  - reflexivity.
Defined.

(** X16.  With unique Bid keys, after a successful accept-bid the project
    has exactly one flagged bid, and it is the target row. *)
Theorem accept_bid_exactly_one {W : Werkzeug} (c c1 : Ctx) (pid bid : Z) :
  NoDup (map bid_id (bids (db c))) ->
  accept_bid pid bid c
  = (Redirect (EpProjectDetail pid) (Some MsgBidAccepted), c1) ->
  exists b,
    In b (bids (db c)) /\ bid_id b = bid /\ bid_project_id b = pid
    /\ accepted_on pid (bids (db c1)) = [set_accepted true b].
Proof.
  intros Hnd Hcall.
  destruct (accept_bid_cases pid bid c)
    as [[_ Hfail]|(me & project & b & _ & _ & _ & Hin & Hid & Hbp & Heq)].
  - rewrite Hcall in Hfail. discriminate.
  - rewrite Heq in Hcall. injection Hcall as <-. simpl.
    exists b. repeat split; trivial.
    unfold accepted_on. rewrite filter_map_comm.
    rewrite (filter_ext_in _ (fun x => bid_id x =? bid_id b)).
    + rewrite (filter_key_singleton _ b Hnd Hin). simpl.
      rewrite (accept_row_on_project _ _ _ Hbp), Hid, Z.eqb_refl. reflexivity.
    + intros x Hx. rewrite accept_row_project, Hid.
      destruct (bid_project_id x =? pid) eqn:Hxp.
      * apply Z.eqb_eq in Hxp. now rewrite (accept_row_on_project _ _ _ Hxp).
      * simpl. symmetry. apply Z.eqb_neq. intros Hxk.
        assert (x = b) by (apply (NoDup_map_inj bid_id (bids (db c))); congruence).
        apply Z.eqb_neq in Hxp. congruence.
Qed.

Lemma accept_bid_exactly_one_witness :
  exists b,
    In b (bids (db ctx_two_flagged)) /\ bid_id b = 3 /\ bid_project_id b = 1
    /\ accepted_on 1 (bids (db (snd (accept_bid 1 3 ctx_two_flagged))))
       = [set_accepted true b].
Proof.
  apply (accept_bid_exactly_one ctx_two_flagged
           (snd (accept_bid 1 3 ctx_two_flagged)) 1 3).
  - simpl. repeat constructor; simpl; intuition lia.
  - reflexivity.
Defined.

(** ** Writing, then reading *)

Lemma get_project_snoc_fresh (l : list Project) (p : Project) :
  project_id p = next_id (map project_id l) ->
  find (fun q => project_id q =? project_id p) (l ++ [p]) = Some p.
Proof.
  intros Hp. apply find_snoc_fresh; [|apply Z.eqb_refl].
  intros q Hq. apply Z.eqb_neq. intros Heq.
  apply (next_id_fresh (map project_id l)). rewrite <- Hp, <- Heq.
  now apply in_map.
Qed.

(** X17.  The redirect of a successful create-project leads to the project
    just created: the id it names was answered with 404 before the call,
    and afterwards [project_detail] shows a project with the stripped
    title, description and budget, owned by the acting user. *)
Theorem create_project_then_detail {W : Werkzeug}
    (c c1 : Ctx) (m : Method)
    (title_field description_field budget_field : string)
    (file : option Upload) (now pid : Z) :
  new_project m title_field description_field budget_field file now c
  = (Redirect (EpProjectDetail pid) (Some MsgProjectCreated), c1) ->
  exists me p,
    current_user c = Some me
    /\ project_detail pid c = ViewAbort 404
    /\ project_detail pid c1 = ViewProject p
    /\ project_id p = pid /\ owner_id p = user_id me
    /\ title p = PyStr.strip title_field
    /\ description p = PyStr.strip description_field
    /\ budget p = PyStr.strip budget_field.
Proof.
  intros Hcall.
  destruct (new_project_cases m title_field description_field budget_field
              file now c)
    as [[_ Hfail]|(me & img & ups & Hme & _ & _ & _ & _ & Heq)].
  - rewrite Hcall in Hfail. discriminate.
  - rewrite Heq in Hcall. injection Hcall as <- <-.
    exists me, (new_project_row c me title_field description_field budget_field img).
    split; [exact Hme|]. split.
    + unfold project_detail.
      assert (H : get_project (db c) (next_id (map project_id (projects (db c))))
                  = None).
      { apply get_project_none. intros p Hp Heq'.
        apply (next_id_fresh (map project_id (projects (db c)))).
        rewrite <- Heq'. now apply in_map. }
      now rewrite H.
    + split; [|repeat split].
      assert (H : get_project
                    (add_project
                       (new_project_row c me title_field description_field
                          budget_field img) (db c))
                    (next_id (map project_id (projects (db c))))
                  = Some (new_project_row c me title_field description_field
                            budget_field img))
        by exact (get_project_snoc_fresh (projects (db c))
                    (new_project_row c me title_field description_field
                       budget_field img) eq_refl).
      unfold project_detail. cbn [db]. now rewrite H.
Qed.

Lemma create_project_then_detail_witness :
  exists p,
    project_detail 1 ctx_alice_in = ViewAbort 404
    /\ project_detail 1
         (snd (new_project POST " Logo design " "A logo" "$100" None
                 1700000000 ctx_alice_in))
       = ViewProject p
    /\ owner_id p = 1 /\ title p = "Logo design".
Proof.
  destruct (create_project_then_detail ctx_alice_in
              (snd (new_project POST " Logo design " "A logo" "$100" None
                      1700000000 ctx_alice_in))
              POST " Logo design " "A logo" "$100" None 1700000000 1 eq_refl)
    as (me & p & Hme & H0 & H1 & _ & Ho & Ht & _).
  exists p. injection Hme as <-. repeat split; trivial.
Defined.

(** X18.  After a successful place-bid the new bid is the last of the bids
    of its project, as [project.bids] lists them; the lists of bids of all
    other projects are unchanged. *)
Theorem place_bid_shows_on_project {W : Werkzeug}
    (c c1 : Ctx) (pid : Z) (price_field message_field : string) :
  place_bid pid price_field message_field c
  = (Redirect (EpProjectDetail pid) (Some MsgBidSent), c1) ->
  exists me project b,
    current_user c = Some me
    /\ get_project (db c1) pid = Some project
    /\ project_bids (db c1) project
       = (project_bids (db c) project ++ [b])%list
    /\ bidder_id b = user_id me /\ price b = PyStr.strip price_field
    /\ accepted b = false
    /\ (forall q, project_id q <> pid ->
                  project_bids (db c1) q = project_bids (db c) q).
Proof.
  intros Hcall.
  destruct (place_bid_cases pid price_field message_field c)
    as [[_ Hfail]|(me & project & Hme & Hp & _ & Heq)].
  - rewrite Hcall in Hfail. discriminate.
  - rewrite Heq in Hcall. injection Hcall as <-.
    destruct (get_project_id _ _ _ Hp) as [Hpid _].
    exists me, project, (new_bid c me pid price_field message_field).
    split; [exact Hme|]. split; [exact Hp|]. split.
    + unfold project_bids. simpl. rewrite filter_app. simpl.
      now rewrite Hpid, Z.eqb_refl.
    + repeat split. intros q Hq. unfold project_bids. simpl.
      rewrite filter_app. simpl.
      assert (H : (pid =? project_id q) = false)
        by (apply Z.eqb_neq; congruence).
      rewrite H. apply app_nil_r.
Qed.

Lemma place_bid_shows_on_project_witness :
  exists project b,
    get_project (db (snd (place_bid 2 "$45" "" ctx_two_flagged))) 2 = Some project
    /\ project_bids (db (snd (place_bid 2 "$45" "" ctx_two_flagged))) project
       = [ mkBid 2 "$30" "" 2 2 true; b ]
    /\ price b = "$45" /\ accepted b = false.
Proof.
  destruct (place_bid_shows_on_project ctx_two_flagged
              (snd (place_bid 2 "$45" "" ctx_two_flagged)) 2 "$45" "" eq_refl)
    as (me & project & b & _ & Hp & Hb & _ & Hpr & Ha & _).
  exists project, b. split; [exact Hp|].
  vm_compute in Hp. injection Hp as <-. repeat split; trivial.
Defined.






(** ** More on [allowed_file] *)

Lemma lower_char_dot (c : ascii) :
  Ascii.eqb (PyStr.lower_char c) "." = Ascii.eqb c ".".
Proof. destruct c as [[] [] [] [] [] [] [] []]; reflexivity. Qed.

Lemma contains_dot_lower (s : string) :
  PyStr.contains_dot (PyStr.lower s) = PyStr.contains_dot s.
Proof.
  induction s as [|c s IH]; simpl; trivial. now rewrite lower_char_dot, IH.
Qed.

Lemma rsplit_dot_lower (s : string) :
  PyStr.rsplit_dot (PyStr.lower s)
  = match PyStr.rsplit_dot s with
    | Some (h, t) => Some (PyStr.lower h, PyStr.lower t)
    | None => None
    end.
Proof.
  induction s as [|c s IH]; simpl; trivial.
  rewrite IH, lower_char_dot.
  destruct (PyStr.rsplit_dot s) as [[h t]|]; simpl; trivial.
  destruct (Ascii.eqb c "."); reflexivity.
Qed.

Lemma allowed_file_lower (s : string) :
  allowed_file (PyStr.lower s) = allowed_file s.
Proof.
  unfold allowed_file. rewrite contains_dot_lower, rsplit_dot_lower.
  destruct (PyStr.rsplit_dot s) as [[h t]|]; trivial.
  now rewrite lower_idem.
Qed.

(** X21.  [allowed_file] does not look at the case of letters: two file
    names that are equal once put in lower case get the same answer. *)
Theorem allowed_file_ignores_case (s1 s2 : string) :
  PyStr.lower s1 = PyStr.lower s2 -> allowed_file s1 = allowed_file s2.
Proof.
  intros H. now rewrite <- (allowed_file_lower s1), H, allowed_file_lower.
Qed.

Lemma allowed_file_ignores_case_witness :
  allowed_file "Holiday.JpEg" = allowed_file "holiday.jpeg".
Proof.
  apply (allowed_file_ignores_case "Holiday.JpEg" "holiday.jpeg"). reflexivity.
Defined.

(** X22.  [allowed_file] looks at the text after the last dot only: for an
    extension without a dot the answer for [stem.ext] is whether [ext] in
    lower case is one of the four allowed ones, whatever the stem (empty,
    or itself ending in another extension).  A name without a dot and a
    name ending in a dot are refused. *)
Theorem allowed_file_last_extension_only (stem ext : string) :
  PyStr.contains_dot ext = false ->
  allowed_file (stem ++ "." ++ ext) = mem_string (PyStr.lower ext) ALLOWED_EXT
  /\ allowed_file ext = false
  /\ allowed_file (stem ++ ".") = false.
Proof.
  intros Hext. split; [|split].
  - unfold allowed_file.
    rewrite (proj2 (rsplit_dot_spec (stem ++ "." ++ ext) stem ext)
               (conj eq_refl Hext)).
    rewrite contains_dot_app. simpl. now rewrite orb_true_r.
  - unfold allowed_file. now rewrite Hext.
  - unfold allowed_file.
    rewrite (proj2 (rsplit_dot_spec (stem ++ ".") stem "") (conj eq_refl eq_refl)).
    simpl. apply andb_false_r.
Qed.

Lemma allowed_file_last_extension_only_witness :
  allowed_file "payload.exe.png" = true
  /\ allowed_file "photo.png.exe" = false
  /\ allowed_file ".gif" = true
  /\ allowed_file "png" = false
  /\ allowed_file "photo." = false.
Proof.
  split; [|split; [|split; [|split]]].
  - exact (proj1 (allowed_file_last_extension_only "payload.exe" "png" eq_refl)).
  - exact (proj1 (allowed_file_last_extension_only "photo.png" "exe" eq_refl)).
  - exact (proj1 (allowed_file_last_extension_only "" "gif" eq_refl)).
  - exact (proj1 (proj2 (allowed_file_last_extension_only "" "png" eq_refl))).
  - exact (proj2 (proj2 (allowed_file_last_extension_only "photo" "png" eq_refl))).
Defined.

(** ** Registering, then logging in *)

(** X23.  After a successful registration, a login with the same
    user-name field and password from any browser that is not signed in
    succeeds and binds the session to the new account, also when the
    stripped user name is the e-mail address of an older account: the row
    with that user name is the one the login query returns. *)
Theorem register_then_login {W : Werkzeug}
    (c c1 c2 : Ctx) (m : Method) (username_field email_field password : string)
    (display_name_field : option string) (salt : string) :
  register m username_field email_field password display_name_field salt c
  = (Redirect EpIndex (Some MsgWelcome), c1) ->
  db c2 = db c1 -> is_authenticated c2 = false ->
  exists u,
    session c1 = Some (user_id u)
    /\ username u = PyStr.strip username_field
    /\ login POST username_field password c2
       = (Redirect EpDashboard (Some MsgLoginOk),
          set_session (Some (user_id u)) c2).
Proof.
  intros Hreg Hdb Hanon.
  destruct (register_cases m username_field email_field password
              display_name_field salt c)
    as [[_ Hfail]|(_ & _ & _ & _ & _ & Hfresh & Heq)].
  - rewrite Hreg in Hfail. discriminate.
  - rewrite Heq in Hreg. injection Hreg as <-.
    exists (new_user c username_field email_field password display_name_field salt).
    split; [reflexivity|]. split; [reflexivity|].
    unfold login. rewrite Hanon, Hdb.
    unfold first_user_matching. cbn [db set_session set_db add_user users].
    rewrite (find_snoc_fresh
               (fun u => String.eqb (username u) (PyStr.strip username_field))
               (users (db c))
               (new_user c username_field email_field password
                  display_name_field salt)).
    + simpl. now rewrite check_generate.
    + intros v Hv. apply String.eqb_neq. now apply Hfresh.
    + simpl. apply String.eqb_refl.
Qed.

Lemma register_then_login_witness :
  login POST " alice@x.com " "pw2"
    (set_session None
       (snd (register POST " alice@x.com " "Bob@X.com" "pw2" None "s"
               ctx_alice_only)))
  = (Redirect EpDashboard (Some MsgLoginOk),
     snd (register POST " alice@x.com " "Bob@X.com" "pw2" None "s"
            ctx_alice_only)).
Proof.
  destruct (register_then_login ctx_alice_only
              (snd (register POST " alice@x.com " "Bob@X.com" "pw2" None "s"
                      ctx_alice_only))
              (set_session None
                 (snd (register POST " alice@x.com " "Bob@X.com" "pw2" None "s"
                         ctx_alice_only)))
              POST " alice@x.com " "Bob@X.com" "pw2" None "s")
    as (u & Hs & _ & Hlogin).
  - reflexivity.
  - reflexivity.
  - reflexivity.
  - assert (Hid : user_id u = 2)
      by (vm_compute in Hs; injection Hs as Hs; symmetry; exact Hs).
    rewrite Hlogin, Hid. reflexivity.
Defined.

(** X24.  E-mail addresses are stored in lower case but the identifier of
    a login is not lower-cased: in a reachable state, a login from a
    browser without a session whose stripped identifier contains a capital
    letter, and is no user name, is refused, whatever the password, even
    when the identifier in lower case is the address of an account. *)
Theorem login_identifier_keeps_case {W : Werkzeug}
    (w : World) (k : nat) (username_field password : string) :
  reachable w ->
  w_sessions w k = None ->
  PyStr.lower (PyStr.strip username_field) <> PyStr.strip username_field ->
  (forall u, In u (users (w_db w)) -> username u <> PyStr.strip username_field) ->
  fst (step k (ReqLogin POST username_field password) w) = InvalidCredentials
  /\ w_sessions (snd (step k (ReqLogin POST username_field password) w)) k = None.
Proof.
  intros Hw Hk Hcase Hname.
  assert (Hnone : first_user_matching (w_db w) (PyStr.strip username_field)
                    (PyStr.strip username_field) = None).
  { apply first_user_matching_none. intros u Hu. split; [now apply Hname|].
    intros Heq. apply Hcase. rewrite <- Heq.
    destruct (reachable_users_normal w Hw u Hu) as [_ He].
    rewrite <- He. apply lower_idem. }
  unfold step. simpl. unfold login, is_authenticated, current_user. simpl.
  rewrite Hk, Hnone. simpl. unfold update_session.
  rewrite Nat.eqb_refl. now split.
Qed.

Lemma login_identifier_keeps_case_witness :
  fst (step 5 (ReqLogin POST "Alice@X.com" "pw1") (run scenario init_world))
  = InvalidCredentials
  /\ fst (step 5 (ReqLogin POST "alice@x.com" "pw1") (run scenario init_world))
     = Redirect EpDashboard (Some MsgLoginOk).
Proof.
  split; [|reflexivity].
  apply (login_identifier_keeps_case (run scenario init_world) 5%nat
           "Alice@X.com" "pw1").
  - apply reachable_run. constructor.
  - reflexivity.
  - vm_compute. discriminate.
  - vm_compute. intros u [<-|[<-|[<-|[]]]]; discriminate.
Defined.

(** ** Who can set a flag *)

(** X25.  With unique Bid keys, whenever a request leaves a flagged bid
    that was not a flagged row of the table before, the request came from
    a signed-in user who owns the project of that bid: nobody else can
    make a bid accepted. *)
Theorem only_owner_accepts {W : Werkzeug} (r : Request) (c : Ctx) (b' : Bid) :
  NoDup (map bid_id (bids (db c))) ->
  In b' (bids (db (snd (handle r c)))) -> accepted b' = true ->
  ~ In b' (bids (db c)) ->
  exists me project,
    current_user c = Some me
    /\ get_project (db c) (bid_project_id b') = Some project
    /\ owner_id project = user_id me.
Proof.
  intros Hnd Hin Hacc Hnew.
  destruct r as [m uf ef p d s|m uf p| |m t d bu f now|pid pf mf|pid bid];
    try (exfalso; apply Hnew;
         eapply handle_flags_from_accept_only; [|exact Hin|exact Hacc];
         intros; discriminate).
  simpl in Hin.
  destruct (accept_bid_cases pid bid c)
    as [[Heq _]|(me & project & b & Hme & Hp & Ho & Hb & Hid & Hbp & Heq)].
  - rewrite Heq in Hin. contradiction.
  - rewrite Heq in Hin. simpl in Hin. apply in_map_iff in Hin.
    destruct Hin as (x & <- & Hx). rewrite accept_row_project.
    exists me, project. split; [exact Hme|]. split; [|exact Ho].
    destruct (Z.eq_dec (bid_project_id x) pid) as [->|Hxp]; [exact Hp|].
    exfalso. destruct (Z.eq_dec (bid_id x) bid) as [Hxk|Hxk].
    + assert (x = b) by (apply (NoDup_map_inj bid_id (bids (db c))); congruence).
      congruence.
    + apply Hnew. now rewrite accept_row_other.
Qed.

Lemma only_owner_accepts_witness :
  exists me project,
    current_user ctx_two_flagged = Some me
    /\ get_project (db ctx_two_flagged) 1 = Some project
    /\ owner_id project = user_id me.
Proof.
  apply (only_owner_accepts (ReqAcceptBid 1 3) ctx_two_flagged
           (mkBid 3 "$70" "" 1 2 true)).
  - simpl. repeat constructor; simpl; intuition lia.
  - simpl. tauto.
  - reflexivity.
  - simpl. intros [H|[H|[H|[]]]]; discriminate.
Defined.
